(** * The malice/bitdefender plugin: scanner-output parser and its callers

    A shallow embedding of [ParseBitdefenderOutput], [extractVirusName],
    [getUpdatedDate], [assert], [AvScan], [updateAV] and [webAvScan] of the
    plugin's [scan.go], together with the part of Go's [strings], [unicode]
    and [time] packages these functions call.

    Conventions.
    - A Go [string] is modelled as the list of runes that Go's UTF-8 decoder
      yields for it ([gostring]).  [strings.Fields] and [strings.TrimSpace]
      work on exactly that view; [strings.Split], [strings.Contains],
      [strings.HasPrefix] and [strings.TrimPrefix] are only ever called with
      ASCII patterns, which match at the same places in the byte view and in
      the rune view.  A byte that is not part of a valid encoding is decoded
      by Go as one rune that is not white space; any number outside the
      white-space table stands for it.
    - [os.Exit] and [log.Fatal] end the process without running deferred
      calls; a Go panic unwinds and runs them.  The three ways a call can end
      are the constructors of [Outcome].
    - What the plugin prints and logs is left out; the file system, the
      clock and the answers of the scanner are fields of [World].
    - The repository holds two revisions of [scan.go].  The parser and the
      name extraction are the same in both, and the sentinel lookup differs
      only in the [Assert] it calls on a failed read; [assert], [AvScan],
      [updateAV] and [webAvScan] follow the later one, which keeps the
      scanned path in a package-level variable and gives the parser a nil
      error.  The [AvScan] of the older one is [legacy.AvScan]. *)

From Stdlib Require Import List String Ascii NArith ZArith Bool Lia.
Import ListNotations.

Local Open Scope N_scope.

(** ** Runes and strings *)

Definition rune := N.
Definition gostring := list rune.

(** A Go string literal (ASCII only) as a [gostring]. *)
Definition str (s : string) : gostring :=
  List.map N_of_ascii (list_ascii_of_string s).

Definition len (s : gostring) : Z := Z.of_nat (List.length s).

Fixpoint eqs (a b : gostring) : bool :=
  match a, b with
  | [], [] => true
  | x :: a', y :: b' => (x =? y) && eqs a' b'
  | _, _ => false
  end.

(** ** Package [unicode] *)

Module unicode.

(** [unicode.IsSpace]: in Latin-1 the six ASCII blanks, U+0085 and U+00A0;
    above Latin-1 the ranges of the [White_Space] table. *)
Definition IsSpace (r : rune) : bool :=
  if r <=? 255 then
    (r =? 9) || (r =? 10) || (r =? 11) || (r =? 12) || (r =? 13)
    || (r =? 32) || (r =? 133) || (r =? 160)
  else
    (r =? 5760) || ((8192 <=? r) && (r <=? 8202))
    || ((8232 <=? r) && (r <=? 8233)) || (r =? 8239) || (r =? 8287)
    || (r =? 12288).

End unicode.

(** ** Package [strings] *)

Module strings.

(** [len(s) >= len(prefix) && s[:len(prefix)] == prefix] *)
Fixpoint HasPrefix (s prefix : gostring) {struct prefix} : bool :=
  match prefix, s with
  | [], _ => true
  | p :: prefix', c :: s' => (c =? p) && HasPrefix s' prefix'
  | _ :: _, [] => false
  end.

(** [if HasPrefix(s, prefix) { return s[len(prefix):] }; return s] *)
Definition TrimPrefix (s prefix : gostring) : gostring :=
  if HasPrefix s prefix then skipn (List.length prefix) s else s.

(** Position of the first instance of [substr] in [s], or [-1]. *)
Fixpoint Index (s substr : gostring) : Z :=
  if HasPrefix s substr then 0%Z
  else match s with
       | [] => (-1)%Z
       | _ :: s' =>
           let i := Index s' substr in
           if (i <? 0)%Z then (-1)%Z else (1 + i)%Z
       end.

(** [Index(s, substr) >= 0] *)
Definition Contains (s substr : gostring) : bool :=
  (0 <=? Index s substr)%Z.

(** The loop of [genSplit]: cut at the first instance of [sep], go on
    after it.  Go bounds the loop by [Count(s, sep)]; here it is bounded
    by [fuel], and [Split] gives it more than it can use. *)
Fixpoint genSplit (fuel : nat) (s sep : gostring) : list gostring :=
  match fuel with
  | O => [s]
  | S fuel' =>
      let m := Index s sep in
      if (m <? 0)%Z then [s]
      else firstn (Z.to_nat m) s
           :: genSplit fuel' (skipn (Z.to_nat m + List.length sep) s) sep
  end.

(** [strings.Split]: an empty separator explodes the string into its
    runes; otherwise the pieces between the instances of [sep]. *)
Definition Split (s sep : gostring) : list gostring :=
  match sep with
  | [] => List.map (fun c => [c]) s
  | _ :: _ => genSplit (List.length s) s sep
  end.

Fixpoint TrimLeftFunc (f : rune -> bool) (s : gostring) : gostring :=
  match s with
  | [] => []
  | c :: s' => if f c then TrimLeftFunc f s' else s
  end.

Fixpoint TrimRightFunc (f : rune -> bool) (s : gostring) : gostring :=
  match s with
  | [] => []
  | c :: s' =>
      match TrimRightFunc f s' with
      | [] => if f c then [] else [c]
      | t => c :: t
      end
  end.

Definition TrimFunc (f : rune -> bool) (s : gostring) : gostring :=
  TrimRightFunc f (TrimLeftFunc f s).

(** [strings.TrimSpace]: all leading and trailing white space removed. *)
Definition TrimSpace (s : gostring) : gostring :=
  TrimFunc unicode.IsSpace s.

(** The scan of [strings.Fields]: [field] is the field being read, in
    reverse ([[]] between fields). *)
Fixpoint fieldsFrom (field : gostring) (s : gostring) : list gostring :=
  match s with
  | [] => match field with [] => [] | _ :: _ => [rev field] end
  | c :: s' =>
      if unicode.IsSpace c then
        match field with
        | [] => fieldsFrom [] s'
        | _ :: _ => rev field :: fieldsFrom [] s'
        end
      else fieldsFrom (c :: field) s'
  end.

(** [strings.Fields]: the maximal runs of runes that are not white space. *)
Definition Fields (s : gostring) : list gostring := fieldsFrom [] s.

End strings.

(** ** Ways a call ends *)

Inductive Outcome (A : Type) : Type :=
| Returned (a : A)        (* the call returns [a] *)
| Exited (code : Z)       (* [os.Exit(code)]; [log.Fatal] is [os.Exit(1)] *)
| Panicked.               (* a run-time panic *)

Arguments Returned {A} a.
Arguments Exited {A} code.
Arguments Panicked {A}.

Definition bind {A B : Type} (o : Outcome A) (k : A -> Outcome B) : Outcome B :=
  match o with
  | Returned a => k a
  | Exited c => Exited c
  | Panicked => Panicked
  end.

Declare Scope outcome_scope.
Delimit Scope outcome_scope with outcome.
Notation "x <- c ;; k" := (bind c (fun x => k))
  (at level 61, c at next level, right associativity) : outcome_scope.
Notation "c ;;; k" := (bind c (fun _ => k))
  (at level 61, right associativity) : outcome_scope.
Local Open Scope outcome_scope.

(** ** Errors *)

(** A non-nil Go [error]: its [Error()] text, and what [os.IsNotExist]
    says of it.  [option error] is an [error] that may be [nil]. *)
Record error : Type := mkError {
  Error : gostring;
  IsNotExist : bool
}.

Definition os_IsNotExist (err : option error) : bool :=
  match err with
  | None => false
  | Some e => IsNotExist e
  end.

(** ** Package [time] *)

Module time.

(** [time.Duration]: a number of nanoseconds held in an [int64]. *)
Definition Duration := Z.

Definition Second : Duration := 1000000000%Z.

(** The value an [int64] holds after an operation whose exact result is
    [z]: two's complement wrap-around. *)
Definition int64 (z : Z) : Z := ((z + 2 ^ 63) mod 2 ^ 64 - 2 ^ 63)%Z.

(** [d * e] on [time.Duration]. *)
Definition mul (d e : Duration) : Duration := int64 (d * e).

(** A wall-clock reading in the local time zone. *)
Record Time : Type := mkTime {
  Year : N;
  Month : N;
  Day : N
}.

(** Decimal digits of [u], most significant first, in front of [acc]. *)
Fixpoint utoa (fuel : nat) (u : N) (acc : gostring) : gostring :=
  match fuel with
  | O => acc
  | S fuel' =>
      let acc' := (48 + u mod 10) :: acc in
      if u / 10 =? 0 then acc' else utoa fuel' (u / 10) acc'
  end.

(** [appendInt] of package [time] for [x >= 0]: the decimal digits of
    [x], padded with zeros on the left to [width]. *)
Definition appendInt (x : N) (width : nat) : gostring :=
  let ds := utoa (S (N.to_nat (N.log2 x))) x [] in
  repeat 48 (width - List.length ds) ++ ds.

(** [t.Format("20060102")]: [2006] is the year on four digits, [01] the
    month on two, [02] the day of the month on two. *)
Definition Format_20060102 (t : Time) : gostring :=
  appendInt (Year t) 4 ++ appendInt (Month t) 2 ++ appendInt (Day t) 2.

End time.

(** ** The world the plugin runs in *)

(** [context.Context] as the plugin uses it: [nil], or the context that
    [context.WithTimeout(context.Background(), d)] makes, kept as its
    duration [d]. *)
Definition Context := option time.Duration.

(** What [ioutil.TempFile] answers: the name of the file it created, or an
    error. *)
Inductive TempFileResult : Type :=
| TempCreated (name : gostring)
| TempFailed (err : error).

(** The package-level variables of [scan.go] ([BuildTime], [path]), the file
    system, and the answers of the collaborators the plugin calls:
    [utils.RunCommand], the clock, [ioutil.TempFile], and the failures of
    file reads, writes and closes and of the JSON encoder.  [statFault p]
    is the text of the error [os.Stat] meets on [p] before it can tell
    whether the file is there (a part of the path that is not a directory,
    a directory that may not be searched): an error that [os.IsNotExist]
    does not recognise. *)
Record World : Type := buildWorld {
  BuildTime : gostring;
  path : gostring;
  files : list (gostring * gostring);
  readFault : gostring -> option error;
  writeFault : gostring -> option error;
  RunCommand : Context -> gostring -> list gostring -> gostring * option error;
  Now : time.Time;
  TempFile : gostring -> gostring -> TempFileResult;
  closeFault : gostring -> option error;
  encodeFault : option error;
  statFault : gostring -> option gostring
}.

(** A world in which [os.Stat] meets no failure of its own. *)
Definition mkWorld (BuildTime path : gostring) (files : list (gostring * gostring))
  (readFault writeFault : gostring -> option error)
  (RunCommand : Context -> gostring -> list gostring -> gostring * option error)
  (Now : time.Time) (TempFile : gostring -> gostring -> TempFileResult)
  (closeFault : gostring -> option error) (encodeFault : option error) : World :=
  buildWorld BuildTime path files readFault writeFault RunCommand Now TempFile
             closeFault encodeFault (fun _ => None).

Definition set_path (w : World) (p : gostring) : World :=
  buildWorld (BuildTime w) p (files w) (readFault w) (writeFault w)
             (RunCommand w) (Now w) (TempFile w) (closeFault w) (encodeFault w)
             (statFault w).

Definition set_files (w : World) (fs : list (gostring * gostring)) : World :=
  buildWorld (BuildTime w) (path w) fs (readFault w) (writeFault w)
             (RunCommand w) (Now w) (TempFile w) (closeFault w) (encodeFault w)
             (statFault w).

(** *** The file system *)

Fixpoint lookup (p : gostring) (fs : list (gostring * gostring)) : option gostring :=
  match fs with
  | [] => None
  | (q, data) :: fs' => if eqs p q then Some data else lookup p fs'
  end.

Fixpoint remove (p : gostring) (fs : list (gostring * gostring))
  : list (gostring * gostring) :=
  match fs with
  | [] => []
  | (q, data) :: fs' => if eqs p q then remove p fs' else (q, data) :: remove p fs'
  end.

Definition store (p data : gostring) (fs : list (gostring * gostring))
  : list (gostring * gostring) :=
  (p, data) :: remove p fs.

Definition ErrNotExist : error :=
  mkError (str "no such file or directory") true.

(** The text of an [*os.PathError]: the operation, the path and the cause.
    The causes of [statFault] are not the absence of the file. *)
Definition PathError (op p cause : gostring) : error :=
  mkError (op ++ str " " ++ p ++ str ": " ++ cause) false.

(** [os.Stat(p)], of which the plugin only looks at the error: the failure
    met on the path, if any; otherwise nil for a file that is there and a
    not-exist error for one that is not. *)
Definition os_Stat (w : World) (p : gostring) : option error :=
  match statFault w p with
  | Some cause => Some (PathError (str "stat") p cause)
  | None =>
      match lookup p (files w) with
      | Some _ => None
      | None => Some ErrNotExist
      end
  end.

(** [ioutil.ReadFile(p)]: a file that is not there cannot be opened, for
    the reason [os.Stat] meets; one that is there is read, unless the read
    fails. *)
Definition ioutil_ReadFile (w : World) (p : gostring) : gostring * option error :=
  match lookup p (files w) with
  | None =>
      match statFault w p with
      | Some cause => ([], Some (PathError (str "open") p cause))
      | None => ([], Some ErrNotExist)
      end
  | Some data =>
      match readFault w p with
      | Some e => ([], Some e)
      | None => (data, None)
      end
  end.

(** [ioutil.WriteFile(p, data, 0644)]: the file is replaced by [data], or
    the write fails and the error is the answer (the file is then left as it
    was). *)
Definition ioutil_WriteFile (w : World) (p data : gostring) : World * option error :=
  match writeFault w p with
  | Some e => (w, Some e)
  | None => (set_files w (store p data (files w)), None)
  end.

(** [os.Remove(p)], its error dropped as the plugin drops it. *)
Definition os_Remove (w : World) (p : gostring) : World :=
  set_files w (remove p (files w)).

(** ** The plugin *)

(** The result record of [scan.go]. *)
Record ResultsData : Type := mkResultsData {
  Infected : bool;
  Result : gostring;
  Engine : gostring;
  Updated : gostring;
  MarkDown : gostring
}.

Record Bitdefender : Type := mkBitdefender {
  Results : ResultsData
}.

Definition set_Result (b : ResultsData) (v : gostring) : ResultsData :=
  mkResultsData (Infected b) v (Engine b) (Updated b) (MarkDown b).
Definition set_Infected (b : ResultsData) (v : bool) : ResultsData :=
  mkResultsData v (Result b) (Engine b) (Updated b) (MarkDown b).
Definition set_Engine (b : ResultsData) (v : gostring) : ResultsData :=
  mkResultsData (Infected b) (Result b) v (Updated b) (MarkDown b).
Definition set_Updated (b : ResultsData) (v : gostring) : ResultsData :=
  mkResultsData (Infected b) (Result b) (Engine b) v (MarkDown b).

(** [ResultsData{}] *)
Definition zeroResultsData : ResultsData := mkResultsData false [] [] [] [].

Definition UPDATED : gostring := str "/opt/malice/UPDATED".
Definition infected_marker : gostring := str "infected:".
Definition Unices_marker : gostring := str "Unices v".
Definition newline : gostring := str (String "010"%char EmptyString).

(** [assert]: a non-nil error other than "exit status 1" is fatal. *)
Definition assert (err : option error) : Outcome unit :=
  match err with
  | None => Returned tt
  | Some e =>
      if negb (eqs (Error e) (str "exit status 1")) then Exited 1
      else Returned tt
  end.

(** [extractVirusName]: [keyvalue[1]] panics when the split has fewer than
    two pieces. *)
Definition extractVirusName (line : gostring) : Outcome gostring :=
  let keyvalue := strings.Split line infected_marker in
  match nth_error keyvalue 1 with
  | Some kv => Returned (strings.TrimSpace kv)
  | None => Panicked
  end.

(** [getUpdatedDate] *)
Definition getUpdatedDate (w : World) : Outcome gostring :=
  if os_IsNotExist (os_Stat w UPDATED) then Returned (BuildTime w)
  else
    let '(updated, err) := ioutil_ReadFile w UPDATED in
    assert err ;;;
    Returned updated.

(** The body of the inner loop over the words of a banner line. *)
Definition engineWord (bitdefender : ResultsData) (word : gostring)
  : ResultsData :=
  if strings.HasPrefix word (str "v")
  then set_Engine bitdefender (strings.TrimPrefix word (str "v"))
  else bitdefender.

(** [for _, word := range words] *)
Definition rangeWords (words : list gostring) (bitdefender : ResultsData)
  : ResultsData :=
  fold_left engineWord words bitdefender.

(** The body of the loop over the lines.  The message printed before
    [os.Exit(2)] is left out. *)
Definition parseLine (bitdefender : ResultsData) (line : gostring)
  : Outcome ResultsData :=
  if negb (len line =? 0)%Z then
    if strings.Contains line infected_marker then
      result <- extractVirusName line ;;
      if negb (len result =? 0)%Z
      then Returned (set_Infected (set_Result bitdefender result) true)
      else Exited 2
    else if strings.Contains line Unices_marker then
      Returned (rangeWords (strings.Fields line) bitdefender)
    else Returned bitdefender
  else Returned bitdefender.

(** [for _, line := range lines] *)
Fixpoint rangeLines (lines : list gostring) (bitdefender : ResultsData)
  : Outcome ResultsData :=
  match lines with
  | [] => Returned bitdefender
  | line :: rest =>
      b <- parseLine bitdefender line ;;
      rangeLines rest b
  end.

(** [ParseBitdefenderOutput] *)
Definition ParseBitdefenderOutput (w : World) (bitdefenderout : gostring)
  (err : option error) : Outcome ResultsData :=
  match err with
  | Some _ => Returned zeroResultsData
  | None =>
      let bitdefender := mkResultsData false [] [] [] [] in
      let lines := strings.Split bitdefenderout newline in
      b <- rangeLines lines bitdefender ;;
      updated <- getUpdatedDate w ;;
      Returned (set_Updated b updated)
  end.

(** [AvScan]: the scanner runs on the global [path] under the context of
    [context.WithTimeout(context.Background(),
    time.Duration(timeout)*time.Second)]; the product is taken in [int64]
    and wraps around. *)
Definition AvScan (w : World) (timeout : Z) : Outcome Bitdefender :=
  let ctx := Some (time.mul timeout time.Second) in
  let '(results, err) := RunCommand w ctx (str "bdscan") [path w] in
  assert err ;;;
  r <- ParseBitdefenderOutput w results None ;;
  Returned (mkBitdefender r).

(** The older revision of [scan.go]: [AvScan] takes the path as an argument
    and hands both answers of [utils.RunCommand], the output and the error,
    to the parser. *)
Module legacy.

Definition AvScan (w : World) (path : gostring) (timeout : Z)
  : Outcome Bitdefender :=
  let ctx := Some (time.mul timeout time.Second) in
  let '(results, err) := RunCommand w ctx (str "bdscan") [path] in
  r <- ParseBitdefenderOutput w results err ;;
  Returned (mkBitdefender r).

End legacy.

(** [updateAV] *)
Definition updateAV (w : World) (ctx : Context) : World * Outcome (option error) :=
  let '(output, err) := RunCommand w ctx (str "bdscan") [str "--update"] in
  match assert err with
  | Returned _ =>
      let t := time.Format_20060102 (Now w) in
      let '(w', err') := ioutil_WriteFile w UPDATED t in
      (w', Returned err')
  | Exited c => (w, Exited c)
  | Panicked => (w, Panicked)
  end.

(** *** The HTTP handler *)

(** The multipart file of a request: its header's name, its bytes, and the
    error [ioutil.ReadAll] meets on it, if any. *)
Record Upload : Type := mkUpload {
  Filename : gostring;
  payload : gostring;
  readAllErr : option error
}.

(** A request: [FormFile key] is the uploaded file under [key], [None] when
    [r.FormFile] returns an error; [spill maxMemory] are the temporary
    files, names and contents, that [r.ParseMultipartForm(maxMemory)] writes
    for the parts of the form that do not fit in memory. *)
Record Request : Type := buildRequest {
  FormFile : gostring -> option Upload;
  spill : Z -> list (gostring * gostring)
}.

(** A request whose form fits in memory. *)
Definition mkRequest (FormFile : gostring -> option Upload) : Request :=
  buildRequest FormFile (fun _ => []).

(** [r.ParseMultipartForm(maxMemory)], its error dropped as the handler
    drops it: the parts that do not fit in memory go to temporary files. *)
Definition ParseMultipartForm (w : World) (r : Request) (maxMemory : Z) : World :=
  set_files w
    (fold_right (fun f fs => store (fst f) (snd f) fs) (files w)
                (spill r maxMemory)).

(** What the handler wrote: the status and the JSON-encoded value. *)
Record Response : Type := mkResponse {
  StatusCode : Z;
  Body : Bitdefender
}.

(** [defer call]: the call runs when the function returns or panics, and
    does not run when the process exits. *)
Definition defer {A : Type} (call : World -> World) (r : World * Outcome A)
  : World * Outcome A :=
  match r with
  | (w, Exited c) => (w, Exited c)
  | (w, o) => (call w, o)
  end.

(** [webAvScan] from [ioutil.ReadAll] on, that is, below the
    [defer os.Remove(tmpfile.Name())]. *)
Definition webAvScanBody (w : World) (tmpfile : gostring) (file : Upload)
  : World * Outcome Response :=
  match assert (readAllErr file) with
  | Returned _ =>
      match writeFault w tmpfile with
      | Some _ => (w, Exited 1)
      | None =>
          let w1 := set_files w (store tmpfile (payload file) (files w)) in
          match closeFault w1 tmpfile with
          | Some _ => (w1, Exited 1)
          | None =>
              let w2 := set_path w1 tmpfile in
              match AvScan w2 60 with
              | Returned bitdefender =>
                  match encodeFault w2 with
                  | Some _ => (w2, Exited 1)
                  | None => (w2, Returned (mkResponse 200 bitdefender))
                  end
              | Exited c => (w2, Exited c)
              | Panicked => (w2, Panicked)
              end
          end
      end
  | Exited c => (w, Exited c)
  | Panicked => (w, Panicked)
  end.

(** [webAvScan].  When [r.FormFile] fails the handler writes status 400 and
    goes on: [header] is nil and [header.Filename] panics, before the
    handler's temporary file exists. *)
Definition webAvScan (w : World) (r : Request) : World * Outcome Response :=
  let w := ParseMultipartForm w r (Z.shiftl 32 20) in
  match FormFile r (str "malware") with
  | None => (w, Panicked)
  | Some file =>
      match TempFile w (str "/malware") (str "web_") with
      | TempFailed _ => (w, Exited 1)
      | TempCreated name =>
          let w0 := set_files w (store name [] (files w)) in
          defer (fun w' => os_Remove w' name) (webAvScanBody w0 name file)
      end
  end.

(** ** Sample worlds and outputs *)

Definition noFault (p : gostring) : option error := @None error.

(** A world whose scanner prints [out] and exits with [err], whose file
    system is [fs], built on [20180914], on 15 June 2023. *)
Definition sampleWorld (fs : list (gostring * gostring)) (out : gostring)
  (err : option error) : World :=
  mkWorld (str "20180914") [] fs noFault noFault
          (fun _ _ _ => (out, err)) (time.mkTime 2023 6 15)
          (fun dir prefix => TempCreated (dir ++ str "/" ++ prefix ++ str "123456"))
          noFault None.

(** A world without sentinel file in which [/opt/malice] is a plain file:
    [os.Stat] on the sentinel answers "not a directory". *)
Definition absentWorld : World :=
  buildWorld (str "20180914") [] [] noFault noFault
             (fun _ _ _ => ([], None)) (time.mkTime 2023 6 15)
             (fun _ _ => TempCreated []) noFault None
             (fun _ => Some (str "not a directory")).

Definition nl : string := String "010"%char EmptyString.

(** The example output of the comment in [ParseBitdefenderOutput]. *)
Definition exampleOutput : gostring :=
  str ("BitDefender Antivirus Scanner for Unices v7.90123 Linux-amd64" ++ nl ++
       "Copyright (C) 1996-2009 BitDefender. All rights reserved." ++ nl ++
       "Trial key found. 30 days remaining." ++ nl ++
       nl ++
       "Infected file action: ignore" ++ nl ++
       "Suspected file action: ignore" ++ nl ++
       "Loading plugins, please wait" ++ nl ++
       "Plugins loaded." ++ nl ++
       nl ++
       "/malware/EICAR  infected: EICAR-Test-File (not a virus)" ++ nl ++
       nl ++
       nl ++
       "Results:" ++ nl ++
       "Folders: 0" ++ nl ++
       "Files: 1" ++ nl ++
       "Packed: 0" ++ nl ++
       "Archives: 0" ++ nl ++
       "Infected files: 1" ++ nl ++
       "Suspect files: 0" ++ nl ++
       "Warnings: 0" ++ nl ++
       "Identified viruses: 1" ++ nl ++
       "I/O errors: 0" ++ nl)%string.

(** ** Vocabulary of the properties *)

(** A separator is unbordered when none of its proper non-empty suffixes is
    one of its prefixes: two instances of it cannot overlap. *)
Definition unbordered (sep : gostring) : bool :=
  forallb (fun k => negb (strings.HasPrefix sep (skipn k sep)))
          (seq 1 (List.length sep - 1)).

(** The name [extractVirusName] reads off a line: the second piece of the
    split at the marker, trimmed. *)
Definition lineName (line : gostring) : gostring :=
  strings.TrimSpace (nth 1 (strings.Split line infected_marker) []).

(** A line that reports an infection and gives no name. *)
Definition nameless (line : gostring) : bool :=
  strings.Contains line infected_marker && (len (lineName line) =? 0)%Z.

(** A line that is read for the engine version: the second case of the
    [switch], reached only when the first does not apply. *)
Definition banner (line : gostring) : bool :=
  negb (strings.Contains line infected_marker)
  && strings.Contains line Unices_marker.

(** The two invariants of the result record. *)
Definition consistent (r : ResultsData) : Prop :=
  (Infected r = true -> Result r <> []) /\
  (Infected r = false -> Result r = []).

(** The decimal digit of the units of [n], as a rune. *)
Definition digit (n : N) : rune := 48 + n mod 10.

(** A date written as YYYYMMDD: four digits of the year, two of the month,
    two of the day. *)
Definition YYYYMMDD (t : time.Time) : gostring :=
  [digit (time.Year t / 1000); digit (time.Year t / 100);
   digit (time.Year t / 10); digit (time.Year t);
   digit (time.Month t / 10); digit (time.Month t);
   digit (time.Day t / 10); digit (time.Day t)].

(** The upload of the examples. *)
Definition sampleRequest : Request :=
  mkRequest (fun _ => Some (mkUpload (str "sample.bin") (str "payload") None)).

(** * Properties *)

(** ** Strings *)

Section StringFacts.

Import strings.

Lemma eqs_refl (a : gostring) : eqs a a = true.
Proof.
  induction a as [|x a IH]; simpl; [reflexivity|].
  now rewrite N.eqb_refl.
Qed.

Lemma eqs_eq (a b : gostring) : eqs a b = true -> a = b.
Proof.
  revert b; induction a as [|x a IH]; intros [|y b]; simpl; try discriminate.
  - reflexivity.
  - intros H. apply andb_true_iff in H as [Hx Hab].
    apply N.eqb_eq in Hx. subst y. now rewrite (IH b Hab).
Qed.

Lemma len_zero (s : gostring) : (len s =? 0)%Z = true <-> s = [].
Proof.
  unfold len. destruct s; simpl; split; intros H;
    try reflexivity; try discriminate.
Qed.

Lemma len_nonzero (s : gostring) : s <> [] -> (len s =? 0)%Z = false.
Proof.
  intros H. destruct (len s =? 0)%Z eqn:E; [|reflexivity].
  apply len_zero in E. contradiction.
Qed.

(** *** [HasPrefix] *)

Lemma HasPrefix_app (p r : gostring) : HasPrefix (p ++ r) p = true.
Proof.
  induction p as [|c p IH]; simpl; [reflexivity|].
  now rewrite N.eqb_refl.
Qed.

Lemma HasPrefix_split (s p : gostring) :
  HasPrefix s p = true -> s = p ++ skipn (List.length p) s.
Proof.
  revert s; induction p as [|c p IH]; intros s H; simpl.
  - reflexivity.
  - destruct s as [|d s]; simpl in H; [discriminate|].
    apply andb_true_iff in H as [Hc Hp].
    apply N.eqb_eq in Hc. subst d. simpl. f_equal. now apply IH.
Qed.

Lemma HasPrefix_length (s p : gostring) :
  HasPrefix s p = true -> (List.length p <= List.length s)%nat.
Proof.
  intros H. rewrite (HasPrefix_split s p H), length_app. lia.
Qed.

(** A prefix of [s ++ b] no longer than [s] is a prefix of [s]. *)
Lemma HasPrefix_app_short (s b p : gostring) :
  HasPrefix (s ++ b) p = true ->
  (List.length p <= List.length s)%nat ->
  HasPrefix s p = true.
Proof.
  revert s; induction p as [|c p IH]; intros s H L; simpl; [reflexivity|].
  destruct s as [|d s]; simpl in L; [lia|].
  simpl in H. apply andb_true_iff in H as [Hc Hp].
  rewrite Hc. simpl. apply IH; [assumption|lia].
Qed.

(** When [p] is a prefix of [t ++ u] and [t] is no longer than [p], what
    is left of [p] after [t] is a prefix of [u]. *)
Lemma HasPrefix_app_skip (t u p : gostring) :
  HasPrefix (t ++ u) p = true ->
  (List.length t <= List.length p)%nat ->
  HasPrefix u (skipn (List.length t) p) = true.
Proof.
  revert p; induction t as [|c t IH]; intros p H L; simpl.
  - exact H.
  - destruct p as [|q p]; simpl in L; [lia|].
    simpl in H. apply andb_true_iff in H as [_ Hp].
    apply IH; [assumption|lia].
Qed.

(** *** [Index] and [Contains] *)

Lemma Index_nil (sep : gostring) :
  Index [] sep = if HasPrefix [] sep then 0%Z else (-1)%Z.
Proof. reflexivity. Qed.

Lemma Index_cons (c : rune) (s sep : gostring) :
  Index (c :: s) sep =
  if HasPrefix (c :: s) sep then 0%Z
  else if (Index s sep <? 0)%Z then (-1)%Z else (1 + Index s sep)%Z.
Proof. reflexivity. Qed.

Lemma Index_lower (s sep : gostring) : (-1 <= Index s sep)%Z.
Proof.
  induction s as [|c s IH]; [rewrite Index_nil|rewrite Index_cons].
  - destruct (HasPrefix [] sep); lia.
  - destruct (HasPrefix (c :: s) sep); [lia|].
    destruct (Index s sep <? 0)%Z eqn:E; [lia|].
    apply Z.ltb_ge in E. lia.
Qed.

(** The position [Index] returns is one where [sep] starts. *)
Lemma Index_cut (s sep : gostring) (m : nat) :
  Index s sep = Z.of_nat m ->
  s = firstn m s ++ sep ++ skipn (m + List.length sep) s.
Proof.
  revert m; induction s as [|c s IH]; intros m H;
    [rewrite Index_nil in H|rewrite Index_cons in H].
  - destruct (HasPrefix [] sep) eqn:E; [|lia].
    assert (m = 0)%nat by lia. subst m.
    now apply HasPrefix_split.
  - destruct (HasPrefix (c :: s) sep) eqn:E.
    + assert (m = 0)%nat by lia. subst m.
      now apply HasPrefix_split.
    + destruct (Index s sep <? 0)%Z eqn:E'; [lia|].
      apply Z.ltb_ge in E'.
      destruct m as [|m]; [lia|].
      simpl. f_equal. apply IH. lia.
Qed.

Lemma Contains_true_Index (s sep : gostring) :
  Contains s sep = true -> exists m, Index s sep = Z.of_nat m.
Proof.
  unfold Contains. intros H. apply Z.leb_le in H.
  exists (Z.to_nat (Index s sep)). lia.
Qed.

Lemma Contains_false_Index (s sep : gostring) :
  Contains s sep = false -> (Index s sep <? 0)%Z = true.
Proof.
  unfold Contains. intros H. apply Z.leb_gt in H. now apply Z.ltb_lt.
Qed.

Lemma Contains_elim (s sep : gostring) :
  Contains s sep = true -> exists x y, s = x ++ sep ++ y.
Proof.
  intros H. destruct (Contains_true_Index _ _ H) as [m Hm].
  eexists _, _. exact (Index_cut s sep m Hm).
Qed.

Lemma Contains_intro (x sep y : gostring) :
  Contains (x ++ sep ++ y) sep = true.
Proof.
  unfold Contains. induction x as [|c x IH].
  - simpl app. destruct (sep ++ y) eqn:E.
    + rewrite Index_nil, <- E, HasPrefix_app. reflexivity.
    + rewrite Index_cons, <- E, HasPrefix_app. reflexivity.
  - simpl app. rewrite Index_cons.
    destruct (HasPrefix (c :: x ++ sep ++ y) sep); [reflexivity|].
    apply Z.leb_le in IH.
    destruct (Index (x ++ sep ++ y) sep <? 0)%Z eqn:E.
    + apply Z.ltb_lt in E. lia.
    + apply Z.leb_le. lia.
Qed.

(** A string that lacks [sep] has no piece that contains it. *)
Lemma Contains_piece (x l y sep : gostring) :
  Contains (x ++ l ++ y) sep = false -> Contains l sep = false.
Proof.
  intros H. destruct (Contains l sep) eqn:E; [|reflexivity].
  destruct (Contains_elim _ _ E) as (a & b & ->).
  rewrite <- H.
  replace (x ++ (a ++ sep ++ b) ++ y) with ((x ++ a) ++ sep ++ (b ++ y))
    by now rewrite <- !app_assoc.
  symmetry. apply Contains_intro.
Qed.

Lemma Contains_nil (sep : gostring) : sep <> [] -> Contains [] sep = false.
Proof. destruct sep; [congruence|reflexivity]. Qed.

Lemma Contains_nonempty (s sep : gostring) :
  sep <> [] -> Contains s sep = true -> s <> [].
Proof.
  intros Hs H ->. rewrite Contains_nil in H by assumption. discriminate.
Qed.

(** *** First instances *)

Lemma unbordered_infected_marker : unbordered infected_marker = true.
Proof. reflexivity. Qed.

Lemma unbordered_newline : unbordered newline = true.
Proof. reflexivity. Qed.

Lemma Contains_tail (c : rune) (s sep : gostring) :
  Contains (c :: s) sep = false -> Contains s sep = false.
Proof.
  unfold Contains. rewrite Index_cons. intros H.
  destruct (HasPrefix (c :: s) sep); [discriminate|].
  destruct (Index s sep <? 0)%Z eqn:E.
  - apply Z.ltb_lt in E. apply Z.leb_gt. lia.
  - apply Z.ltb_ge in E. apply Z.leb_gt in H. lia.
Qed.

Lemma Index_HasPrefix (s sep : gostring) :
  HasPrefix s sep = true -> Index s sep = 0%Z.
Proof.
  intros H. destruct s; [rewrite Index_nil|rewrite Index_cons]; now rewrite H.
Qed.

Lemma Contains_HasPrefix (s sep : gostring) :
  HasPrefix s sep = true -> Contains s sep = true.
Proof.
  intros H. unfold Contains. now rewrite Index_HasPrefix.
Qed.

(** In [a ++ sep ++ b], with [a] free of [sep] and [sep] unbordered, no
    instance of [sep] starts inside [a]. *)
Lemma no_early_instance (a sep b : gostring) :
  unbordered sep = true ->
  Contains a sep = false ->
  a <> [] ->
  HasPrefix (a ++ sep ++ b) sep = false.
Proof.
  intros U Ha Hne.
  destruct (HasPrefix (a ++ sep ++ b) sep) eqn:E; [|reflexivity].
  destruct (Nat.le_gt_cases (List.length sep) (List.length a)) as [L|L].
  - apply HasPrefix_app_short in E; [|assumption].
    apply Contains_HasPrefix in E. congruence.
  - apply HasPrefix_app_skip in E; [|lia].
    apply HasPrefix_app_short in E; [|rewrite length_skipn; lia].
    unfold unbordered in U. rewrite forallb_forall in U.
    specialize (U (List.length a)).
    rewrite E in U. simpl in U.
    assert (List.length a <> 0)%nat by (destruct a; simpl; congruence).
    assert (false = true); [|discriminate].
    apply U. apply in_seq. lia.
Qed.

(** The first instance of an unbordered [sep] in [a ++ sep ++ b], with [a]
    free of [sep], is the one written. *)
Lemma Index_first (a sep b : gostring) :
  unbordered sep = true ->
  Contains a sep = false ->
  Index (a ++ sep ++ b) sep = Z.of_nat (List.length a).
Proof.
  intros U. induction a as [|c a IH]; intros Ha.
  - simpl app. apply Index_HasPrefix, HasPrefix_app.
  - simpl app. rewrite Index_cons.
    change (c :: a ++ sep ++ b) with ((c :: a) ++ sep ++ b).
    rewrite no_early_instance by (assumption || discriminate).
    rewrite IH by (eapply Contains_tail; eassumption).
    destruct (Z.of_nat (List.length a) <? 0)%Z eqn:E.
    + apply Z.ltb_lt in E. lia.
    + simpl List.length. lia.
Qed.

(** *** [Split] *)

Lemma genSplit_none (fuel : nat) (s sep : gostring) :
  Contains s sep = false -> genSplit fuel s sep = [s].
Proof.
  intros H. apply Contains_false_Index in H.
  destruct fuel; simpl; [reflexivity|]. now rewrite H.
Qed.

(** More fuel than runes is never used up. *)
Lemma genSplit_fuel (f1 f2 : nat) (s sep : gostring) :
  sep <> [] ->
  (List.length s <= f1)%nat -> (List.length s <= f2)%nat ->
  genSplit f1 s sep = genSplit f2 s sep.
Proof.
  intros Hsep. revert f2 s.
  induction f1 as [|f1 IH]; intros f2 s L1 L2.
  - destruct s; [|simpl in L1; lia].
    rewrite (genSplit_none f2) by now apply Contains_nil. reflexivity.
  - destruct f2 as [|f2].
    + destruct s; [|simpl in L2; lia].
      rewrite (genSplit_none (S f1)) by now apply Contains_nil. reflexivity.
    + simpl. destruct (Index s sep <? 0)%Z eqn:E; [reflexivity|].
      f_equal. assert (0 < List.length sep)%nat
        by (destruct sep; simpl; [congruence|lia]).
      apply IH; rewrite length_skipn; lia.
Qed.

Lemma Split_none (s sep : gostring) :
  sep <> [] -> Contains s sep = false -> Split s sep = [s].
Proof.
  intros Hsep H. unfold Split. destruct sep; [congruence|].
  now apply genSplit_none.
Qed.

Lemma Split_Index (s sep : gostring) (m : nat) :
  sep <> [] ->
  Index s sep = Z.of_nat m ->
  Split s sep = firstn m s :: Split (skipn (m + List.length sep) s) sep.
Proof.
  intros Hsep H. unfold Split. destruct sep as [|c sep]; [congruence|].
  set (sp := c :: sep) in *.
  destruct (List.length s) eqn:L.
  - apply length_zero_iff_nil in L. subst s.
    rewrite Index_nil in H. simpl in H. lia.
  - simpl. rewrite H.
    replace (Z.of_nat m <? 0)%Z with false by (symmetry; apply Z.ltb_ge; lia).
    rewrite Nat2Z.id. f_equal.
    apply genSplit_fuel; [discriminate| |lia].
    rewrite length_skipn. subst sp. simpl. lia.
Qed.

(** Splitting [a ++ sep ++ b] at an unbordered [sep] that [a] is free of. *)
Lemma Split_app (a sep b : gostring) :
  sep <> [] ->
  unbordered sep = true ->
  Contains a sep = false ->
  Split (a ++ sep ++ b) sep = a :: Split b sep.
Proof.
  intros Hsep U Ha.
  rewrite (Split_Index _ _ (List.length a) Hsep (Index_first a sep b U Ha)).
  rewrite firstn_app, firstn_all, Nat.sub_diag. simpl firstn.
  rewrite app_nil_r. f_equal. f_equal.
  rewrite app_assoc, <- length_app.
  rewrite skipn_app, skipn_all, Nat.sub_diag. reflexivity.
Qed.

(** Every piece of a split is a piece of the string. *)
Lemma genSplit_piece (fuel : nat) (s sep l : gostring) :
  In l (genSplit fuel s sep) -> exists x y, s = x ++ l ++ y.
Proof.
  revert s; induction fuel as [|fuel IH]; intros s H; simpl in H.
  - destruct H as [<-|[]]. exists [], []. now rewrite app_nil_r.
  - destruct (Index s sep <? 0)%Z eqn:E.
    + destruct H as [<-|[]]. exists [], []. now rewrite app_nil_r.
    + apply Z.ltb_ge in E.
      assert (Hm : Index s sep = Z.of_nat (Z.to_nat (Index s sep))) by lia.
      pose proof (Index_cut s sep _ Hm) as Hcut.
      destruct H as [<-|H].
      * exists [], (sep ++ skipn (Z.to_nat (Index s sep) + List.length sep) s).
        exact Hcut.
      * destruct (IH _ H) as (x & y & Hxy).
        exists (firstn (Z.to_nat (Index s sep)) s ++ sep ++ x), y.
        rewrite Hcut at 1. rewrite Hxy. now rewrite <- !app_assoc.
Qed.

Lemma Split_piece (s sep l : gostring) :
  sep <> [] -> In l (Split s sep) -> exists x y, s = x ++ l ++ y.
Proof.
  intros Hsep. unfold Split. destruct sep; [congruence|].
  apply genSplit_piece.
Qed.

(** *** [TrimSpace] *)

Lemma TrimLeftFunc_all (f : rune -> bool) (s : gostring) :
  forallb f s = true -> TrimLeftFunc f s = [].
Proof.
  induction s as [|c s IH]; simpl; [reflexivity|].
  intros H. apply andb_true_iff in H as [Hc Hs]. rewrite Hc. now apply IH.
Qed.

(** A string of white space trims to the empty string. *)
Lemma TrimSpace_blank (s : gostring) :
  forallb unicode.IsSpace s = true -> TrimSpace s = [].
Proof.
  intros H. unfold TrimSpace, TrimFunc. now rewrite TrimLeftFunc_all.
Qed.

(** A string of white space holds no instance of a separator that starts
    with a rune that is not white space. *)
Lemma blank_Contains (s sep : gostring) (c : rune) :
  forallb unicode.IsSpace s = true ->
  hd_error sep = Some c -> unicode.IsSpace c = false ->
  Contains s sep = false.
Proof.
  intros H Hc Hsp. destruct (Contains s sep) eqn:E; [|reflexivity].
  destruct (Contains_elim _ _ E) as (x & y & ->).
  destruct sep as [|d sep]; [discriminate|]. injection Hc as ->.
  rewrite forallb_app in H. apply andb_true_iff in H as [_ H].
  simpl in H. rewrite Hsp in H. discriminate.
Qed.

(** *** [Fields] *)

(** The scan starts afresh after a white-space rune. *)
Lemma fieldsFrom_space (field a rest : gostring) (c : rune) :
  unicode.IsSpace c = true ->
  fieldsFrom field (a ++ c :: rest) =
  fieldsFrom field (a ++ [c]) ++ fieldsFrom [] rest.
Proof.
  intros Hc. revert field.
  induction a as [|d a IH]; intros field; simpl.
  - rewrite Hc. destruct field; reflexivity.
  - destruct (unicode.IsSpace d).
    + destruct field; simpl; now rewrite IH.
    + apply IH.
Qed.

(** A field that has been started comes out first, possibly longer. *)
Lemma fieldsFrom_started (field s : gostring) :
  field <> [] ->
  exists t rest, fieldsFrom field s = (rev field ++ t) :: rest.
Proof.
  revert field; induction s as [|c s IH]; intros field Hne; simpl.
  - destruct field; [congruence|]. exists [], []. now rewrite app_nil_r.
  - destruct (unicode.IsSpace c).
    + destruct field; [congruence|].
      exists [], (fieldsFrom [] s). now rewrite app_nil_r.
    + destruct (IH (c :: field)) as (t & rest & E); [discriminate|].
      exists (c :: t), rest. rewrite E. simpl. now rewrite <- app_assoc.
Qed.

(** The last element of a list that satisfies a test. *)
Lemma last_such {A : Type} (P : A -> bool) (l : list A) :
  (exists x, In x l /\ P x = true) ->
  exists l1 x l2,
    l = l1 ++ x :: l2 /\ P x = true /\ forallb (fun y => negb (P y)) l2 = true.
Proof.
  induction l as [|a l IH]; intros (x & Hin & Hx); [destruct Hin|].
  destruct (existsb P l) eqn:E.
  - apply existsb_exists in E. destruct (IH E) as (l1 & y & l2 & -> & Hy & Hl2).
    exists (a :: l1), y, l2. auto.
  - assert (Hl : forallb (fun y => negb (P y)) l = true).
    { apply forallb_forall. intros y Hy.
      destruct (P y) eqn:Py; [|reflexivity].
      assert (existsb P l = true) by (apply existsb_exists; eauto).
      congruence. }
    destruct Hin as [->|Hin].
    + exists [], x, l. auto.
    + rewrite forallb_forall in Hl. specialize (Hl x Hin).
      rewrite Hx in Hl. discriminate.
Qed.

(** A line that holds "Unices v" has a field that starts with "v". *)
Lemma Fields_banner (line : gostring) :
  Contains line Unices_marker = true ->
  exists word, In word (Fields line) /\ HasPrefix word (str "v") = true.
Proof.
  intros H. destruct (Contains_elim _ _ H) as (x & y & ->).
  change Unices_marker with (str "Unices" ++ 32 :: 118 :: []).
  replace (x ++ (str "Unices" ++ [32; 118]) ++ y)
    with ((x ++ str "Unices") ++ 32 :: (118 :: y))
    by (rewrite <- !app_assoc; reflexivity).
  unfold Fields. rewrite fieldsFrom_space by reflexivity.
  change (fieldsFrom [] (118 :: y)) with (fieldsFrom [118] y).
  destruct (fieldsFrom_started [118] y) as (t & rest & E); [discriminate|].
  rewrite E. exists (rev [118] ++ t). split.
  - apply in_or_app. right. now left.
  - reflexivity.
Qed.

End StringFacts.

(** ** The parser *)

Section ParserFacts.

Import strings.

Lemma infected_marker_nonempty : infected_marker <> [].
Proof. discriminate. Qed.

Lemma newline_nonempty : newline <> [].
Proof. discriminate. Qed.

Lemma genSplit_cons (fuel : nat) (s sep : gostring) :
  exists p rest, genSplit fuel s sep = p :: rest.
Proof.
  destruct fuel; simpl; [eauto|].
  destruct (Index s sep <? 0)%Z; eauto.
Qed.

Lemma Split_cons (s sep : gostring) :
  sep <> [] -> exists p rest, Split s sep = p :: rest.
Proof.
  intros Hsep. unfold Split. destruct sep; [congruence|].
  apply genSplit_cons.
Qed.

(** A line that holds the marker splits into two pieces at least. *)
Lemma Split_marker_two (line : gostring) :
  Contains line infected_marker = true ->
  exists p q rest, Split line infected_marker = p :: q :: rest.
Proof.
  intros H. destruct (Contains_true_Index _ _ H) as [m Hm].
  rewrite (Split_Index _ _ m infected_marker_nonempty Hm).
  destruct (Split_cons (skipn (m + List.length infected_marker) line)
              infected_marker infected_marker_nonempty) as (q & rest & E).
  rewrite E. eauto.
Qed.

(** On a line that holds the marker, [extractVirusName] does not panic. *)
Lemma extractVirusName_Contains (line : gostring) :
  Contains line infected_marker = true ->
  extractVirusName line = Returned (lineName line).
Proof.
  intros H. destruct (Split_marker_two line H) as (p & q & rest & E).
  unfold extractVirusName, lineName. rewrite E. reflexivity.
Qed.

(** The name is the text between the first marker and the next one, or the
    end of the line. *)
Lemma lineName_between (pre mid tail : gostring) :
  Contains pre infected_marker = false ->
  Contains mid infected_marker = false ->
  tail = [] \/ HasPrefix tail infected_marker = true ->
  lineName (pre ++ infected_marker ++ mid ++ tail) = TrimSpace mid.
Proof.
  intros Hpre Hmid Htail. unfold lineName.
  rewrite (Split_app pre infected_marker (mid ++ tail)
             infected_marker_nonempty unbordered_infected_marker Hpre).
  destruct Htail as [->|Ht].
  - rewrite app_nil_r.
    rewrite (Split_none mid _ infected_marker_nonempty Hmid). reflexivity.
  - rewrite (HasPrefix_split _ _ Ht).
    rewrite (Split_app mid infected_marker _
               infected_marker_nonempty unbordered_infected_marker Hmid).
    reflexivity.
Qed.

(** *** One line *)

Lemma parseLine_marker (b : ResultsData) (line : gostring) :
  Contains line infected_marker = true ->
  parseLine b line =
  if (len (lineName line) =? 0)%Z then Exited 2
  else Returned (set_Infected (set_Result b (lineName line)) true).
Proof.
  intros H. unfold parseLine.
  rewrite (len_nonzero line)
    by (eapply Contains_nonempty; [apply infected_marker_nonempty|eassumption]).
  simpl negb. cbv iota. rewrite H, (extractVirusName_Contains line H).
  simpl bind. destruct (len (lineName line) =? 0)%Z; reflexivity.
Qed.

Lemma parseLine_nameless (b : ResultsData) (line : gostring) :
  nameless line = true -> parseLine b line = Exited 2.
Proof.
  unfold nameless. intros H. apply andb_true_iff in H as [Hc Hn].
  now rewrite (parseLine_marker b line Hc), Hn.
Qed.

Lemma parseLine_named (b : ResultsData) (line : gostring) :
  Contains line infected_marker = true ->
  nameless line = false ->
  parseLine b line = Returned (set_Infected (set_Result b (lineName line)) true).
Proof.
  unfold nameless. intros Hc Hn. rewrite Hc in Hn. simpl in Hn.
  now rewrite (parseLine_marker b line Hc), Hn.
Qed.

Lemma parseLine_banner (b : ResultsData) (line : gostring) :
  banner line = true ->
  parseLine b line = Returned (rangeWords (Fields line) b).
Proof.
  unfold banner. intros H. apply andb_true_iff in H as [Hc Hu].
  apply negb_true_iff in Hc. unfold parseLine.
  rewrite Hc, Hu. destruct (negb (len line =? 0)%Z) eqn:E; [reflexivity|].
  apply negb_false_iff, len_zero in E. subst line. discriminate.
Qed.

Lemma parseLine_other (b : ResultsData) (line : gostring) :
  Contains line infected_marker = false ->
  Contains line Unices_marker = false ->
  parseLine b line = Returned b.
Proof.
  intros Hc Hu. unfold parseLine. rewrite Hc, Hu.
  destruct (negb (len line =? 0)%Z); reflexivity.
Qed.

Lemma rangeWords_cons (word : gostring) (words : list gostring) (b : ResultsData) :
  rangeWords (word :: words) b = rangeWords words (engineWord b word).
Proof. reflexivity. Qed.

Lemma rangeWords_app (ws1 ws2 : list gostring) (b : ResultsData) :
  rangeWords (ws1 ++ ws2) b = rangeWords ws2 (rangeWords ws1 b).
Proof. apply fold_left_app. Qed.

(** The words of a banner line touch the engine version only. *)
Lemma rangeWords_keeps (words : list gostring) (b : ResultsData) :
  Infected (rangeWords words b) = Infected b /\
  Result (rangeWords words b) = Result b /\
  Updated (rangeWords words b) = Updated b /\
  MarkDown (rangeWords words b) = MarkDown b.
Proof.
  revert b; induction words as [|w ws IH]; intros b.
  - repeat split.
  - rewrite rangeWords_cons.
    destruct (IH (engineWord b w)) as (H1 & H2 & H3 & H4).
    rewrite H1, H2, H3, H4. unfold engineWord.
    destruct (HasPrefix w (str "v")); repeat split.
Qed.

(** Without a word that starts with "v" nothing changes. *)
Lemma rangeWords_none (ws : list gostring) (b : ResultsData) :
  forallb (fun x => negb (HasPrefix x (str "v"))) ws = true ->
  rangeWords ws b = b.
Proof.
  revert b; induction ws as [|x ws IH]; intros b H.
  - reflexivity.
  - apply andb_true_iff in H as [Hx Hws]. apply negb_true_iff in Hx.
    rewrite rangeWords_cons. unfold engineWord at 1. rewrite Hx. now apply IH.
Qed.

(** The last word that starts with "v" gives the engine version. *)
Lemma rangeWords_last (ws1 ws2 : list gostring) (word : gostring) (b : ResultsData) :
  HasPrefix word (str "v") = true ->
  forallb (fun x => negb (HasPrefix x (str "v"))) ws2 = true ->
  Engine (rangeWords (ws1 ++ word :: ws2) b) = TrimPrefix word (str "v").
Proof.
  intros Hw Hws.
  rewrite rangeWords_app, rangeWords_cons, (rangeWords_none ws2) by assumption.
  unfold engineWord. rewrite Hw. reflexivity.
Qed.

(** A line either is nameless, and the process exits with status 2, or the
    loop goes on. *)
Lemma parseLine_cases (b : ResultsData) (line : gostring) :
  (nameless line = true /\ parseLine b line = Exited 2) \/
  (nameless line = false /\ exists b', parseLine b line = Returned b').
Proof.
  destruct (nameless line) eqn:N.
  - left. split; [reflexivity|]. now apply parseLine_nameless.
  - right. split; [reflexivity|].
    destruct (Contains line infected_marker) eqn:C.
    + rewrite parseLine_named by assumption. eauto.
    + destruct (Contains line Unices_marker) eqn:U.
      * rewrite parseLine_banner by (unfold banner; now rewrite C, U). eauto.
      * rewrite parseLine_other by assumption. eauto.
Qed.

(** A line without the marker leaves the verdict as it is. *)
Lemma parseLine_clean (b : ResultsData) (line : gostring) :
  Contains line infected_marker = false ->
  exists b', parseLine b line = Returned b' /\
             Infected b' = Infected b /\ Result b' = Result b.
Proof.
  intros C. destruct (Contains line Unices_marker) eqn:U.
  - rewrite parseLine_banner by (unfold banner; now rewrite C, U).
    eexists; split; [reflexivity|].
    destruct (rangeWords_keeps (Fields line) b) as (H1 & H2 & _). auto.
  - rewrite parseLine_other by assumption. eauto.
Qed.

(** A line that is not a banner leaves the engine version as it is. *)
Lemma parseLine_no_banner (b b' : ResultsData) (line : gostring) :
  banner line = false ->
  parseLine b line = Returned b' ->
  Engine b' = Engine b.
Proof.
  unfold banner. intros Hb H.
  destruct (Contains line infected_marker) eqn:C.
  - rewrite (parseLine_marker b line C) in H.
    destruct (len (lineName line) =? 0)%Z; [discriminate|].
    injection H as <-. reflexivity.
  - simpl in Hb. rewrite (parseLine_other b line C Hb) in H.
    injection H as <-. reflexivity.
Qed.

Lemma parseLine_consistent (b b' : ResultsData) (line : gostring) :
  consistent b -> parseLine b line = Returned b' -> consistent b'.
Proof.
  intros [H1 H2] H.
  destruct (Contains line infected_marker) eqn:C.
  - rewrite (parseLine_marker b line C) in H.
    destruct (len (lineName line) =? 0)%Z eqn:E; [discriminate|].
    injection H as <-. split; simpl; [|discriminate].
    intros _ Hn. rewrite Hn in E. discriminate.
  - destruct (parseLine_clean b line C) as (b0 & E & Hi & Hr).
    rewrite E in H. injection H as <-. unfold consistent.
    rewrite Hi, Hr. auto.
Qed.

(** *** The loop over the lines *)

Lemma rangeLines_app (l1 l2 : list gostring) (b : ResultsData) :
  rangeLines (l1 ++ l2) b = (b1 <- rangeLines l1 b ;; rangeLines l2 b1).
Proof.
  revert b; induction l1 as [|l l1 IH]; intros b; simpl; [reflexivity|].
  destruct (parseLine b l); simpl; auto.
Qed.

(** The loop runs to its end when no line is nameless. *)
Lemma rangeLines_returns (lines : list gostring) (b : ResultsData) :
  forallb (fun l => negb (nameless l)) lines = true ->
  exists b', rangeLines lines b = Returned b'.
Proof.
  revert b; induction lines as [|l lines IH]; intros b H; simpl; [eauto|].
  apply andb_true_iff in H as [Hl H]. apply negb_true_iff in Hl.
  destruct (parseLine_cases b l) as [[N _]|[_ [b' E]]]; [congruence|].
  rewrite E. simpl. now apply IH.
Qed.

(** The first nameless line ends the process with status 2. *)
Lemma rangeLines_exits (lines : list gostring) (b : ResultsData) :
  existsb nameless lines = true -> rangeLines lines b = Exited 2.
Proof.
  revert b; induction lines as [|l lines IH]; intros b H; simpl in *;
    [discriminate|].
  destruct (parseLine_cases b l) as [[_ E]|[N [b' E]]]; rewrite E; simpl.
  - reflexivity.
  - rewrite N in H. simpl in H. now apply IH.
Qed.

(** Lines without the marker leave the verdict as it is. *)
Lemma rangeLines_clean (lines : list gostring) (b : ResultsData) :
  forallb (fun l => negb (Contains l infected_marker)) lines = true ->
  exists b', rangeLines lines b = Returned b' /\
             Infected b' = Infected b /\ Result b' = Result b.
Proof.
  revert b; induction lines as [|l lines IH]; intros b H; simpl; [eauto|].
  apply andb_true_iff in H as [Hl H]. apply negb_true_iff in Hl.
  destruct (parseLine_clean b l Hl) as (b1 & E & Hi & Hr).
  rewrite E. simpl. destruct (IH b1 H) as (b' & E' & Hi' & Hr').
  exists b'. rewrite E', Hi', Hr'. auto.
Qed.

(** Lines that are not banners leave the engine version as it is. *)
Lemma rangeLines_no_banner (lines : list gostring) (b b' : ResultsData) :
  forallb (fun l => negb (banner l)) lines = true ->
  rangeLines lines b = Returned b' ->
  Engine b' = Engine b.
Proof.
  revert b; induction lines as [|l lines IH]; intros b H E; simpl in E.
  - now injection E as <-.
  - apply andb_true_iff in H as [Hl H]. apply negb_true_iff in Hl.
    destruct (parseLine b l) as [b1| |] eqn:E1; simpl in E; try discriminate.
    rewrite (IH b1 H E). eapply parseLine_no_banner; eassumption.
Qed.

Lemma rangeLines_consistent (lines : list gostring) (b b' : ResultsData) :
  consistent b -> rangeLines lines b = Returned b' -> consistent b'.
Proof.
  revert b; induction lines as [|l lines IH]; intros b Hb E; simpl in E.
  - now injection E as <-.
  - destruct (parseLine b l) as [b1| |] eqn:E1; simpl in E; try discriminate.
    eapply IH; [|eassumption]. eapply parseLine_consistent; eassumption.
Qed.

(** The pieces of an output that lacks the marker lack it too. *)
Lemma lines_clean (out : gostring) :
  Contains out infected_marker = false ->
  forallb (fun l => negb (Contains l infected_marker))
          (Split out newline) = true.
Proof.
  intros H. apply forallb_forall. intros l Hl.
  destruct (Split_piece out newline l newline_nonempty Hl) as (x & y & ->).
  apply negb_true_iff. eapply Contains_piece; eassumption.
Qed.

Lemma clean_not_nameless (lines : list gostring) :
  forallb (fun l => negb (Contains l infected_marker)) lines = true ->
  forallb (fun l => negb (nameless l)) lines = true.
Proof.
  intros H. rewrite forallb_forall in *. intros l Hl.
  specialize (H l Hl). apply negb_true_iff in H.
  unfold nameless. now rewrite H.
Qed.

Lemma clean_not_banner_or (lines : list gostring) :
  forallb (fun l => negb (Contains l Unices_marker)) lines = true ->
  forallb (fun l => negb (banner l)) lines = true.
Proof.
  intros H. rewrite forallb_forall in *. intros l Hl.
  specialize (H l Hl). apply negb_true_iff in H.
  unfold banner. rewrite H. now rewrite andb_false_r.
Qed.

End ParserFacts.

(** ** The sentinel lookup *)

Lemma getUpdatedDate_absent (w : World) :
  lookup UPDATED (files w) = None ->
  statFault w UPDATED = None ->
  getUpdatedDate w = Returned (BuildTime w).
Proof.
  intros H F. unfold getUpdatedDate, os_Stat. rewrite F, H. reflexivity.
Qed.

Lemma getUpdatedDate_present (w : World) (contents : gostring) :
  lookup UPDATED (files w) = Some contents ->
  readFault w UPDATED = None ->
  getUpdatedDate w = Returned contents.
Proof.
  intros H R. unfold getUpdatedDate, os_Stat, ioutil_ReadFile.
  rewrite H, R. destruct (statFault w UPDATED); reflexivity.
Qed.

(** A file that cannot be opened for a reason other than its absence ends
    the process. *)
Lemma assert_open_PathError (p cause : gostring) :
  assert (Some (PathError (str "open") p cause)) = Exited 1.
Proof. reflexivity. Qed.

(** An absent sentinel file whose absence [os.Stat] cannot tell is fatal. *)
Lemma getUpdatedDate_absent_fault (w : World) (cause : gostring) :
  lookup UPDATED (files w) = None ->
  statFault w UPDATED = Some cause ->
  getUpdatedDate w = Exited 1.
Proof.
  intros H F. unfold getUpdatedDate, os_Stat, ioutil_ReadFile.
  rewrite F, H. reflexivity.
Qed.

(** When the lookup returns and the sentinel file is absent, what it
    returns is the build-time constant. *)
Lemma getUpdatedDate_absent_returned (w : World) (u : gostring) :
  lookup UPDATED (files w) = None ->
  getUpdatedDate w = Returned u ->
  u = BuildTime w.
Proof.
  intros H U. destruct (statFault w UPDATED) as [cause|] eqn:F.
  - rewrite (getUpdatedDate_absent_fault w cause H F) in U. discriminate.
  - rewrite (getUpdatedDate_absent w H F) in U. now injection U as <-.
Qed.

(** C7, as the code has it.  The sentinel lookup returns the build-time
    constant when the file [/opt/malice/UPDATED] is absent and [os.Stat]
    says so, that is, meets no other failure on the path; and it returns
    the contents of the file, as they are, when the file is there and can
    be read. *)
Theorem getUpdatedDate_sentinel (w : World) :
  (lookup UPDATED (files w) = None ->
   statFault w UPDATED = None ->
   getUpdatedDate w = Returned (BuildTime w)) /\
  (forall contents,
     lookup UPDATED (files w) = Some contents ->
     readFault w UPDATED = None ->
     getUpdatedDate w = Returned contents).
Proof.
  split.
  - apply getUpdatedDate_absent.
  - intros contents. apply getUpdatedDate_present.
Qed.

(** C7 at two worlds: no sentinel file, and a sentinel file that holds
    "20230615". *)
Lemma getUpdatedDate_sentinel_witness :
  getUpdatedDate (sampleWorld [] [] None) = Returned (str "20180914") /\
  getUpdatedDate (sampleWorld [(UPDATED, str "20230615")] [] None)
  = Returned (str "20230615").
Proof.
  split.
  - apply (proj1 (getUpdatedDate_sentinel (sampleWorld [] [] None)));
      reflexivity.
  - apply (proj2 (getUpdatedDate_sentinel
                    (sampleWorld [(UPDATED, str "20230615")] [] None)));
      reflexivity.
Defined.

(** C7 as stated fails: in the world below the sentinel file is absent,
    [/opt/malice] being a plain file, [os.Stat] answers an error that
    [os.IsNotExist] does not recognise, and the lookup goes on to read the
    file and ends the process with status 1 instead of returning the
    build-time constant. *)
Lemma getUpdatedDate_absent_fatal :
  lookup UPDATED (files absentWorld) = None /\
  os_Stat absentWorld UPDATED
  = Some (mkError (str "stat /opt/malice/UPDATED: not a directory") false) /\
  BuildTime absentWorld = str "20180914" /\
  getUpdatedDate absentWorld = Exited 1.
Proof. repeat split. Qed.

(** ** The verdict *)

Lemma consistent_zero : consistent (mkResultsData false [] [] [] []).
Proof. split; simpl; [discriminate|reflexivity]. Qed.

(** C5.  In every result the parser returns, [Infected = true] implies a
    non-empty [Result], and [Infected = false] implies an empty [Result]. *)
Theorem ParseBitdefenderOutput_consistent
  (w : World) (out : gostring) (err : option error) (r : ResultsData) :
  ParseBitdefenderOutput w out err = Returned r ->
  (Infected r = true -> Result r <> []) /\
  (Infected r = false -> Result r = []).
Proof.
  unfold ParseBitdefenderOutput. destruct err as [e|].
  - intros H. injection H as <-. apply consistent_zero.
  - destruct (rangeLines (strings.Split out newline) (mkResultsData false [] [] [] []))
      as [b| |] eqn:E; simpl; try discriminate.
    destruct (getUpdatedDate w) as [u| |]; simpl; try discriminate.
    intros H. injection H as <-.
    exact (rangeLines_consistent _ _ _ consistent_zero E).
Qed.

(** C5 on the example output of the source. *)
Lemma ParseBitdefenderOutput_consistent_witness :
  (Infected (mkResultsData true (str "EICAR-Test-File (not a virus)")
               (str "7.90123") (str "20180914") []) = true ->
   Result (mkResultsData true (str "EICAR-Test-File (not a virus)")
             (str "7.90123") (str "20180914") []) <> []) /\
  (Infected (mkResultsData true (str "EICAR-Test-File (not a virus)")
               (str "7.90123") (str "20180914") []) = false ->
   Result (mkResultsData true (str "EICAR-Test-File (not a virus)")
             (str "7.90123") (str "20180914") []) = []).
Proof.
  apply (ParseBitdefenderOutput_consistent
           (sampleWorld [] [] None) exampleOutput None).
  vm_compute. reflexivity.
Defined.



(** ** The name on a line *)

(** C10.  On a line with two instances of the marker or more, the name is
    the trimmed text between the first instance and the second. *)
Theorem extractVirusName_second_piece (a b c : gostring) :
  strings.Contains a infected_marker = false ->
  strings.Contains b infected_marker = false ->
  extractVirusName (a ++ infected_marker ++ b ++ infected_marker ++ c)
  = Returned (strings.TrimSpace b).
Proof.
  intros Ha Hb.
  rewrite extractVirusName_Contains by apply Contains_intro.
  f_equal. apply lineName_between; try assumption.
  right. apply HasPrefix_app.
Qed.

(** C10 on the line "a infected: b infected: c". *)
Lemma extractVirusName_second_piece_witness :
  extractVirusName (str "a infected: b infected: c") = Returned (str "b").
Proof.
  apply (extractVirusName_second_piece (str "a ") (str " b ") (str " c"));
    reflexivity.
Defined.

(** ** Infected lines *)

(** The state of the loop once it has read the last line that holds the
    marker, that line having a name. *)
Lemma rangeLines_last_marker
  (before after : list gostring) (line : gostring) (b : ResultsData) :
  forallb (fun l => negb (nameless l)) before = true ->
  strings.Contains line infected_marker = true ->
  nameless line = false ->
  forallb (fun l => negb (strings.Contains l infected_marker)) after = true ->
  exists b', rangeLines (before ++ line :: after) b = Returned b' /\
             Infected b' = true /\ Result b' = lineName line.
Proof.
  intros Hb Hc Hn Ha.
  destruct (rangeLines_returns before b Hb) as (b1 & E1).
  rewrite rangeLines_app, E1. simpl.
  rewrite (parseLine_named b1 line Hc Hn). simpl.
  destruct (rangeLines_clean after
              (set_Infected (set_Result b1 (lineName line)) true) Ha)
    as (b' & E & Hi & Hr).
  exists b'. auto.
Qed.

(** C1, as the code has it.  Let the parser be given no error and let the
    sentinel lookup return.  If the last line that holds the marker reads
    [path ++ "infected:" ++ name ++ tail], where [path] and [name] are free
    of the marker, [tail] is empty or starts with the marker, and [name]
    does not trim to the empty string, and if no line before it is nameless,
    then the parser returns a result with [Infected = true] and [Result]
    the trimmed [name]. *)
Theorem ParseBitdefenderOutput_last_infected_line
  (w : World) (out : gostring) (before after : list gostring)
  (path name tail u : gostring) :
  strings.Split out newline
  = before ++ (path ++ infected_marker ++ name ++ tail) :: after ->
  strings.Contains path infected_marker = false ->
  strings.Contains name infected_marker = false ->
  tail = [] \/ strings.HasPrefix tail infected_marker = true ->
  strings.TrimSpace name <> [] ->
  forallb (fun l => negb (nameless l)) before = true ->
  forallb (fun l => negb (strings.Contains l infected_marker)) after = true ->
  getUpdatedDate w = Returned u ->
  exists r, ParseBitdefenderOutput w out None = Returned r /\
            Infected r = true /\
            Result r = strings.TrimSpace name.
Proof.
  intros Hs Hp Hn Ht Hne Hb Ha U.
  pose proof (lineName_between path name tail Hp Hn Ht) as L.
  assert (Hc : strings.Contains (path ++ infected_marker ++ name ++ tail)
                 infected_marker = true) by apply Contains_intro.
  assert (Hnl : nameless (path ++ infected_marker ++ name ++ tail) = false).
  { unfold nameless. rewrite Hc, L. simpl. now apply len_nonzero. }
  destruct (rangeLines_last_marker before after _
              (mkResultsData false [] [] [] []) Hb Hc Hnl Ha)
    as (b & E & Hi & Hr).
  unfold ParseBitdefenderOutput. cbv zeta. rewrite Hs.
  unfold gostring in *. rewrite E, U. simpl.
  exists (set_Updated b u). rewrite <- L. auto.
Qed.

(** C1 on the example output of the source. *)
Lemma ParseBitdefenderOutput_last_infected_line_witness :
  exists r,
    ParseBitdefenderOutput (sampleWorld [] [] None) exampleOutput None
    = Returned r /\
    Infected r = true /\
    Result r = strings.TrimSpace (str " EICAR-Test-File (not a virus)").
Proof.
  apply (ParseBitdefenderOutput_last_infected_line
           (sampleWorld [] [] None) exampleOutput
           (firstn 9 (strings.Split exampleOutput newline))
           (skipn 10 (strings.Split exampleOutput newline))
           (str "/malware/EICAR  ")
           (str " EICAR-Test-File (not a virus)") [] (str "20180914")).
  - vm_compute. reflexivity.
  - reflexivity.
  - reflexivity.
  - left. reflexivity.
  - vm_compute. discriminate.
  - vm_compute. reflexivity.
  - vm_compute. reflexivity.
  - reflexivity.
Defined.

(** C1 as stated fails: the output below holds the line "a infected: X",
    whose name trims to "X", and the parser returns the name "Y" of the
    later line. *)
Lemma ParseBitdefenderOutput_later_line_wins :
  In (str "a" ++ str " " ++ infected_marker ++ str " X")
     (strings.Split (str ("a infected: X" ++ nl ++ "b infected: Y")) newline) /\
  strings.TrimSpace (str " X") = str "X" /\
  ParseBitdefenderOutput (sampleWorld [] [] None)
    (str ("a infected: X" ++ nl ++ "b infected: Y")) None
  = Returned (mkResultsData true (str "Y") [] (str "20180914") []).
Proof.
  split; [|split].
  - vm_compute. left. reflexivity.
  - reflexivity.
  - reflexivity.
Qed.

(** C2, as the code has it.  Let the parser be given no error.  If some
    line reads [pre ++ "infected:" ++ blank ++ tail], where [pre] is free of
    the marker, [blank] is white space only and [tail] is empty or starts
    with the marker, the process exits with status 2 and no result is
    returned. *)
Theorem ParseBitdefenderOutput_nameless_exits
  (w : World) (out : gostring) (pre blank tail : gostring) :
  In (pre ++ infected_marker ++ blank ++ tail) (strings.Split out newline) ->
  strings.Contains pre infected_marker = false ->
  forallb unicode.IsSpace blank = true ->
  tail = [] \/ strings.HasPrefix tail infected_marker = true ->
  ParseBitdefenderOutput w out None = Exited 2.
Proof.
  intros Hin Hp Hb Ht.
  assert (Hbl : strings.Contains blank infected_marker = false)
    by (apply (blank_Contains blank infected_marker 105); auto).
  assert (Hn : nameless (pre ++ infected_marker ++ blank ++ tail) = true).
  { unfold nameless. rewrite Contains_intro.
    rewrite (lineName_between pre blank tail Hp Hbl Ht).
    now rewrite TrimSpace_blank. }
  unfold ParseBitdefenderOutput. cbv zeta.
  rewrite rangeLines_exits; [reflexivity|].
  apply existsb_exists. eauto.
Qed.

(** C2 on the output "foo infected:   ". *)
Lemma ParseBitdefenderOutput_nameless_exits_witness :
  ParseBitdefenderOutput (sampleWorld [] [] None) (str "foo infected:   ") None
  = Exited 2.
Proof.
  apply (ParseBitdefenderOutput_nameless_exits
           (sampleWorld [] [] None) (str "foo infected:   ")
           (str "foo ") (str "   ") []).
  - vm_compute. left. reflexivity.
  - reflexivity.
  - reflexivity.
  - left. reflexivity.
Defined.

(** C2 as stated fails twice.  The line "a infected: b infected:   " holds
    the marker with nothing but white space after it, and the parser returns
    the name "b".  And when the parser is given an error, as the older
    [AvScan] gives it the scanner's, the line "foo infected:   " gives the
    empty result. *)
Lemma ParseBitdefenderOutput_nameless_returns :
  In (str "a infected: b " ++ infected_marker ++ str "   ")
     (strings.Split (str "a infected: b infected:   ") newline) /\
  forallb unicode.IsSpace (str "   ") = true /\
  ParseBitdefenderOutput (sampleWorld [] [] None)
    (str "a infected: b infected:   ") None
  = Returned (mkResultsData true (str "b") [] (str "20180914") []) /\
  ParseBitdefenderOutput (sampleWorld [] [] None) (str "foo infected:   ")
    (Some (mkError (str "exit status 1") false))
  = Returned (mkResultsData false [] [] [] []).
Proof.
  split; [|split; [|split]].
  - vm_compute. left. reflexivity.
  - reflexivity.
  - reflexivity.
  - reflexivity.
Qed.

(** ** The engine version *)

(** C3, as the code has it.  Let the parser be given no error, let the
    sentinel lookup return and let no line be nameless.  Take the last line
    that holds "Unices v" and does not hold "infected:".  Its fields have a
    last one that starts with "v", and the parser returns a result whose
    [Engine] is that field without its leading "v". *)
Theorem ParseBitdefenderOutput_engine_last_word
  (w : World) (out : gostring) (before after : list gostring)
  (line u : gostring) :
  strings.Split out newline = before ++ line :: after ->
  strings.Contains line infected_marker = false ->
  strings.Contains line Unices_marker = true ->
  forallb (fun l => negb (nameless l)) before = true ->
  forallb (fun l => negb (nameless l)) after = true ->
  forallb (fun l => negb (banner l)) after = true ->
  getUpdatedDate w = Returned u ->
  exists ws1 word ws2 r,
    strings.Fields line = ws1 ++ word :: ws2 /\
    strings.HasPrefix word (str "v") = true /\
    forallb (fun x => negb (strings.HasPrefix x (str "v"))) ws2 = true /\
    ParseBitdefenderOutput w out None = Returned r /\
    Engine r = strings.TrimPrefix word (str "v").
Proof.
  intros Hs Hc Hu Hb Ha Hnb U.
  destruct (last_such (fun x => strings.HasPrefix x (str "v"))
              (strings.Fields line) (Fields_banner line Hu))
    as (ws1 & word & ws2 & HF & Hw & Hws).
  exists ws1, word, ws2.
  assert (Hbn : banner line = true) by (unfold banner; now rewrite Hc, Hu).
  destruct (rangeLines_returns before (mkResultsData false [] [] [] []) Hb)
    as (b1 & E1).
  destruct (rangeLines_returns after (rangeWords (strings.Fields line) b1) Ha)
    as (b2 & E2).
  pose proof (rangeLines_no_banner after _ _ Hnb E2) as HE.
  exists (set_Updated b2 u). repeat split; try assumption.
  - unfold ParseBitdefenderOutput. cbv zeta. rewrite Hs, rangeLines_app, E1.
    simpl. rewrite (parseLine_banner b1 line Hbn). simpl.
    rewrite E2, U. reflexivity.
  - simpl. rewrite HE, HF. now apply rangeWords_last.
Qed.

(** C3 on the example output of the source, whose first line is the
    banner. *)
Lemma ParseBitdefenderOutput_engine_last_word_witness :
  exists ws1 word ws2 r,
    strings.Fields
      (str "BitDefender Antivirus Scanner for Unices v7.90123 Linux-amd64")
    = ws1 ++ word :: ws2 /\
    strings.HasPrefix word (str "v") = true /\
    forallb (fun x => negb (strings.HasPrefix x (str "v"))) ws2 = true /\
    ParseBitdefenderOutput (sampleWorld [] [] None) exampleOutput None
    = Returned r /\
    Engine r = strings.TrimPrefix word (str "v").
Proof.
  apply (ParseBitdefenderOutput_engine_last_word
           (sampleWorld [] [] None) exampleOutput []
           (skipn 1 (strings.Split exampleOutput newline))
           (str "BitDefender Antivirus Scanner for Unices v7.90123 Linux-amd64")
           (str "20180914")).
  - vm_compute. reflexivity.
  - reflexivity.
  - reflexivity.
  - reflexivity.
  - vm_compute. reflexivity.
  - vm_compute. reflexivity.
  - reflexivity.
Defined.

(** The example output of the source gives the result of the source's
    documentation. *)
Example ParseBitdefenderOutput_example :
  ParseBitdefenderOutput (sampleWorld [] [] None) exampleOutput None
  = Returned (mkResultsData true (str "EICAR-Test-File (not a virus)")
                (str "7.90123") (str "20180914") []).
Proof. vm_compute. reflexivity. Qed.

(** C3 as stated fails: on the banner line "Unices v1 v2" the first field
    that starts with "v" is "v1", and the parser returns the engine "2" of
    the last one, since the loop over the words has no [break]. *)
Lemma ParseBitdefenderOutput_engine_not_first_word :
  strings.Contains (str "Unices v1 v2") Unices_marker = true /\
  strings.Fields (str "Unices v1 v2") = [str "Unices"; str "v1"; str "v2"] /\
  strings.HasPrefix (str "Unices") (str "v") = false /\
  strings.HasPrefix (str "v1") (str "v") = true /\
  strings.TrimPrefix (str "v1") (str "v") = str "1" /\
  ParseBitdefenderOutput (sampleWorld [] [] None) (str "Unices v1 v2") None
  = Returned (mkResultsData false [] (str "2") (str "20180914") []).
Proof. repeat split. Qed.

(** ** What is populated *)

(** C4, as the code has it.  A result returned for an input with an error
    has every field empty.  A result returned for an input without error
    has [Updated] equal to what the sentinel lookup returned, which is the
    build-time constant when the sentinel file is absent, and has [Engine]
    empty when no line is read for the engine version. *)
Theorem ParseBitdefenderOutput_fields
  (w : World) (out : gostring) (err : option error) (r : ResultsData) :
  ParseBitdefenderOutput w out err = Returned r ->
  match err with
  | Some _ => r = mkResultsData false [] [] [] []
  | None =>
      getUpdatedDate w = Returned (Updated r) /\
      (lookup UPDATED (files w) = None -> Updated r = BuildTime w) /\
      (forallb (fun l => negb (banner l)) (strings.Split out newline) = true ->
       Engine r = [])
  end.
Proof.
  unfold ParseBitdefenderOutput. destruct err as [e|].
  - intros H. now injection H as <-.
  - cbv zeta.
    destruct (rangeLines (strings.Split out newline)
                (mkResultsData false [] [] [] [])) as [b| |] eqn:E;
      simpl; try discriminate.
    destruct (getUpdatedDate w) as [u| |] eqn:U; simpl; try discriminate.
    intros H. injection H as <-. simpl. split; [reflexivity|]. split.
    + intros Habs. exact (getUpdatedDate_absent_returned w u Habs U).
    + intros Hnb. exact (rangeLines_no_banner _ _ _ Hnb E).
Qed.

(** C4 on an output without banner, in a world without sentinel file. *)
Lemma ParseBitdefenderOutput_fields_witness :
  getUpdatedDate (sampleWorld [] [] None) = Returned (str "20180914") /\
  (lookup UPDATED (files (sampleWorld [] [] None)) = None ->
   str "20180914" = BuildTime (sampleWorld [] [] None)) /\
  (forallb (fun l => negb (banner l))
     (strings.Split (str "/malware/EICAR  infected: EICAR-Test-File") newline)
   = true ->
   @nil rune = []).
Proof.
  apply (ParseBitdefenderOutput_fields (sampleWorld [] [] None)
           (str "/malware/EICAR  infected: EICAR-Test-File") None
           (mkResultsData true (str "EICAR-Test-File") [] (str "20180914") [])).
  reflexivity.
Defined.

(** C4 as stated fails: an input with an error gives a result whose
    [Engine] and [Updated] are empty; an output without banner line gives an
    empty [Engine]; and with an empty build-time constant and no sentinel
    file [Updated] is empty. *)
Lemma ParseBitdefenderOutput_fields_empty :
  ParseBitdefenderOutput (sampleWorld [] [] None) exampleOutput
    (Some (mkError (str "exit status 2") false))
  = Returned (mkResultsData false [] [] [] []) /\
  ParseBitdefenderOutput (sampleWorld [] [] None)
    (str "/malware/EICAR  infected: EICAR-Test-File") None
  = Returned (mkResultsData true (str "EICAR-Test-File") [] (str "20180914") []) /\
  ParseBitdefenderOutput
    (mkWorld [] [] [] noFault noFault (fun _ _ _ => ([], None))
       (time.mkTime 2023 6 15) (fun _ _ => TempCreated []) noFault None)
    exampleOutput None
  = Returned (mkResultsData true (str "EICAR-Test-File (not a virus)")
                (str "7.90123") [] []).
Proof.
  repeat split; vm_compute; reflexivity.
Qed.

(** ** The file system *)

Lemma lookup_store (p data : gostring) (fs : list (gostring * gostring)) :
  lookup p (store p data fs) = Some data.
Proof. unfold store. simpl. now rewrite eqs_refl. Qed.

Lemma lookup_remove (p : gostring) (fs : list (gostring * gostring)) :
  lookup p (remove p fs) = None.
Proof.
  induction fs as [|[q data] fs IH]; simpl; [reflexivity|].
  destruct (eqs p q) eqn:E; [assumption|].
  simpl. now rewrite E.
Qed.

(** ** The update *)

Lemma appendInt_4_table :
  forallb (fun n => eqs (time.appendInt (N.of_nat n) 4)
                        [digit (N.of_nat n / 1000); digit (N.of_nat n / 100);
                         digit (N.of_nat n / 10); digit (N.of_nat n)])
          (seq 0 (N.to_nat 10000)) = true.
Proof. vm_compute. reflexivity. Qed.

Lemma appendInt_2_table :
  forallb (fun n => eqs (time.appendInt (N.of_nat n) 2)
                        [digit (N.of_nat n / 10); digit (N.of_nat n)])
          (seq 0 (N.to_nat 100)) = true.
Proof. vm_compute. reflexivity. Qed.

Lemma appendInt_4 (y : N) :
  y <= 9999 ->
  time.appendInt y 4 = [digit (y / 1000); digit (y / 100); digit (y / 10); digit y].
Proof.
  intros H. pose proof appendInt_4_table as T. rewrite forallb_forall in T.
  specialize (T (N.to_nat y)). rewrite N2Nat.id in T.
  apply eqs_eq, T, in_seq. lia.
Qed.

Lemma appendInt_2 (m : N) :
  m <= 99 -> time.appendInt m 2 = [digit (m / 10); digit m].
Proof.
  intros H. pose proof appendInt_2_table as T. rewrite forallb_forall in T.
  specialize (T (N.to_nat m)). rewrite N2Nat.id in T.
  apply eqs_eq, T, in_seq. lia.
Qed.

(** The layout "20060102" is YYYYMMDD for the dates of the calendar. *)
Lemma Format_20060102_YYYYMMDD (t : time.Time) :
  time.Year t <= 9999 -> time.Month t <= 12 -> time.Day t <= 31 ->
  time.Format_20060102 t = YYYYMMDD t.
Proof.
  intros Hy Hm Hd. unfold time.Format_20060102, YYYYMMDD.
  rewrite appendInt_4, !appendInt_2 by lia. reflexivity.
Qed.

(** C9.  When the scanner's update sub-command runs without error,
    [updateAV] replaces the sentinel file by the date of the local clock
    written as YYYYMMDD and returns no error, unless the write fails, in
    which case it returns the error of the write. *)
Theorem updateAV_writes_date (w : World) (ctx : Context) (output : gostring) :
  RunCommand w ctx (str "bdscan") [str "--update"] = (output, None) ->
  time.Year (Now w) <= 9999 ->
  time.Month (Now w) <= 12 ->
  time.Day (Now w) <= 31 ->
  match writeFault w UPDATED with
  | None =>
      exists w', updateAV w ctx = (w', Returned None) /\
                 lookup UPDATED (files w') = Some (YYYYMMDD (Now w))
  | Some e => updateAV w ctx = (w, Returned (Some e))
  end.
Proof.
  intros R Hy Hm Hd. unfold updateAV. rewrite R. simpl assert. cbv iota beta zeta.
  unfold ioutil_WriteFile.
  destruct (writeFault w UPDATED) as [e|]; [reflexivity|].
  eexists. split; [reflexivity|].
  unfold set_files. cbn [files]. rewrite lookup_store.
  now rewrite Format_20060102_YYYYMMDD.
Qed.

(** C9 on 15 June 2023, with a write that succeeds. *)
Lemma updateAV_writes_date_witness :
  exists w', updateAV (sampleWorld [] [] None) None = (w', Returned None) /\
             lookup UPDATED (files w') = Some (str "20230615").
Proof.
  apply (updateAV_writes_date (sampleWorld [] [] None) None []).
  - reflexivity.
  - vm_compute. discriminate.
  - vm_compute. discriminate.
  - vm_compute. discriminate.
Defined.

(** A write that fails is reported: the error comes back to the caller. *)
Example updateAV_write_fails :
  updateAV
    (mkWorld (str "20180914") [] [] noFault
       (fun _ => Some (mkError (str "permission denied") false))
       (fun _ _ _ => ([], None)) (time.mkTime 2023 6 15)
       (fun _ _ => TempCreated []) noFault None) None
  = (mkWorld (str "20180914") [] [] noFault
       (fun _ => Some (mkError (str "permission denied") false))
       (fun _ _ _ => ([], None)) (time.mkTime 2023 6 15)
       (fun _ _ => TempCreated []) noFault None,
     Returned (Some (mkError (str "permission denied") false))).
Proof. reflexivity. Qed.

(** ** The handler's temporary file *)

(** [r.ParseMultipartForm] changes the files only: the handler asks the
    world it started in for the name of its temporary file. *)
Lemma webAvScan_eq (w : World) (r : Request) :
  webAvScan w r =
  match FormFile r (str "malware") with
  | None => (ParseMultipartForm w r (Z.shiftl 32 20), Panicked)
  | Some file =>
      match TempFile w (str "/malware") (str "web_") with
      | TempFailed _ => (ParseMultipartForm w r (Z.shiftl 32 20), Exited 1)
      | TempCreated name =>
          defer (fun w' => os_Remove w' name)
            (webAvScanBody
               (set_files (ParseMultipartForm w r (Z.shiftl 32 20))
                  (store name []
                     (files (ParseMultipartForm w r (Z.shiftl 32 20)))))
               name file)
      end
  end.
Proof. reflexivity. Qed.

(** Below the [defer], every exit leaves the temporary file in place. *)
Lemma webAvScanBody_exit (w w' : World) (tmpfile : gostring) (file : Upload)
  (c : Z) :
  lookup tmpfile (files w) <> None ->
  webAvScanBody w tmpfile file = (w', Exited c) ->
  lookup tmpfile (files w') <> None.
Proof.
  intros Hw. unfold webAvScanBody.
  destruct (assert (readAllErr file)) as [[]|c0|].
  - destruct (writeFault w tmpfile).
    + intros H. injection H as <- _. assumption.
    + destruct (closeFault _ tmpfile).
      * intros H. injection H as <- _. unfold set_path, set_files. cbn [files]. rewrite lookup_store. discriminate.
      * destruct (AvScan _ 60) as [b|c1|].
        -- destruct (encodeFault _); intros H; [|discriminate].
           injection H as <- _. unfold set_path, set_files. cbn [files]. rewrite lookup_store. discriminate.
        -- intros H. injection H as <- _. unfold set_path, set_files. cbn [files]. rewrite lookup_store.
           discriminate.
        -- discriminate.
  - intros H. injection H as <- _. assumption.
  - discriminate.
Qed.

(** C8 fails on the code.  Whenever [webAvScan] has created its temporary
    file and the process then exits -- a nameless line in the parser, an
    error of the scanner such as a timeout, a failed write -- the deferred
    [os.Remove] does not run and the file is still there. *)
Theorem webAvScan_exit_keeps_tempfile
  (w w' : World) (r : Request) (file : Upload) (name : gostring) (c : Z) :
  FormFile r (str "malware") = Some file ->
  TempFile w (str "/malware") (str "web_") = TempCreated name ->
  webAvScan w r = (w', Exited c) ->
  lookup name (files w') <> None.
Proof.
  intros Hf Ht. rewrite webAvScan_eq, Hf, Ht.
  destruct (webAvScanBody _ name file) as [w1 o] eqn:E.
  destruct o as [resp|c1|]; simpl; try discriminate.
  intros H. injection H as <- _.
  eapply webAvScanBody_exit; [|exact E].
  unfold set_path, set_files. cbn [files]. rewrite lookup_store. discriminate.
Qed.

(** C8 at a scan whose output has a nameless line: the process exits with
    status 2 and the temporary file stays. *)
Lemma webAvScan_exit_keeps_tempfile_witness :
  lookup (str "/malware/web_123456")
    (files (fst (webAvScan (sampleWorld [] (str "foo infected:   ") None)
                   sampleRequest))) <> None.
Proof.
  apply (webAvScan_exit_keeps_tempfile
           (sampleWorld [] (str "foo infected:   ") None) _ sampleRequest
           (mkUpload (str "sample.bin") (str "payload") None)
           (str "/malware/web_123456") 2); reflexivity.
Defined.

(** The three ways out of the handler: a nameless line (exit 2, file
    kept), a scanner killed at its deadline (exit 1, file kept), and a scan
    that goes through (file removed). *)
Example webAvScan_three_exits :
  (exists w',
     webAvScan (sampleWorld [] (str "foo infected:   ") None) sampleRequest
     = (w', Exited 2) /\
     lookup (str "/malware/web_123456") (files w') = Some (str "payload")) /\
  (exists w',
     webAvScan (sampleWorld [] [] (Some (mkError (str "context deadline exceeded") false)))
       sampleRequest
     = (w', Exited 1) /\
     lookup (str "/malware/web_123456") (files w') = Some (str "payload")) /\
  (exists w' resp,
     webAvScan (sampleWorld [] exampleOutput None) sampleRequest
     = (w', Returned resp) /\
     lookup (str "/malware/web_123456") (files w') = None).
Proof.
  split; [|split].
  - eexists. split; reflexivity.
  - eexists. split; reflexivity.
  - eexists. eexists. split; vm_compute; reflexivity.
Qed.

(** When the handler returns, the deferred call has removed the file. *)
Lemma webAvScan_return_removes
  (w w' : World) (r : Request) (name : gostring) (resp : Response) :
  TempFile w (str "/malware") (str "web_") = TempCreated name ->
  webAvScan w r = (w', Returned resp) ->
  lookup name (files w') = None.
Proof.
  intros Ht. rewrite webAvScan_eq.
  destruct (FormFile r (str "malware")) as [file|]; [|discriminate].
  rewrite Ht.
  destruct (webAvScanBody _ name file) as [w1 o].
  destruct o as [resp1|c1|]; simpl; try discriminate.
  intros H. injection H as <- _. unfold os_Remove, set_files. cbn [files].
  apply lookup_remove.
Qed.

(** * Further properties of the code *)

(** ** Strings, continued *)

Section MoreStringFacts.

Import strings.

Lemma In_skipn {A : Type} (x : A) (n : nat) (l : list A) :
  In x (skipn n l) -> In x l.
Proof.
  intros H. rewrite <- (firstn_skipn n l). apply in_or_app. now right.
Qed.

(** A prefix that reaches past [t] in [t ++ c :: u] holds [c]. *)
Lemma HasPrefix_over (t u p : gostring) (c : rune) :
  HasPrefix (t ++ c :: u) p = true ->
  (List.length t < List.length p)%nat ->
  In c p.
Proof.
  intros H L. apply HasPrefix_app_skip in H; [|lia].
  destruct (skipn (List.length t) p) as [|q p'] eqn:E.
  - apply (f_equal (@List.length rune)) in E.
    rewrite length_skipn in E. simpl in E. lia.
  - simpl in H. apply andb_true_iff in H as [Hc _].
    apply N.eqb_eq in Hc. subst q.
    apply (In_skipn c (List.length t)). rewrite E. now left.
Qed.

(** An instance of [m] in [a ++ c :: b], where [c] is not a rune of [m],
    lies in [a] or in [b]. *)
Lemma Contains_across (a b m : gostring) (c : rune) :
  ~ In c m ->
  Contains (a ++ c :: b) m = true ->
  Contains a m = false ->
  Contains b m = true.
Proof.
  intros Hc. induction a as [|d a IH]; intros H Ha.
  - simpl app in H. unfold Contains in *. rewrite Index_cons in H.
    destruct (HasPrefix (c :: b) m) eqn:P.
    + exfalso. destruct m as [|q m]; [discriminate Ha|].
      simpl in P. apply andb_true_iff in P as [Pq _].
      apply N.eqb_eq in Pq. subst q. apply Hc. now left.
    + destruct (Index b m <? 0)%Z eqn:E; [discriminate|].
      apply Z.ltb_ge in E. now apply Z.leb_le.
  - apply IH; [|eapply Contains_tail; eassumption].
    simpl app in H. unfold Contains in H |- *. rewrite Index_cons in H.
    destruct (HasPrefix (d :: a ++ c :: b) m) eqn:P.
    + exfalso.
      destruct (Nat.le_gt_cases (List.length m) (List.length (d :: a))) as [L|L].
      * change (d :: a ++ c :: b) with ((d :: a) ++ c :: b) in P.
        apply HasPrefix_app_short in P; [|assumption].
        apply Contains_HasPrefix in P. congruence.
      * apply Hc. apply (HasPrefix_over (d :: a) b m c); assumption.
    + destruct (Index (a ++ c :: b) m <? 0)%Z eqn:E; [discriminate|].
      apply Z.ltb_ge in E. now apply Z.leb_le.
Qed.

(** An instance of [m] in [s] lies in one of the pieces of [s] split at a
    rune that [m] does not hold. *)
Lemma genSplit_holds (fuel : nat) (s m : gostring) (c : rune) :
  m <> [] -> ~ In c m ->
  (List.length s <= fuel)%nat ->
  Contains s m = true ->
  exists l, In l (genSplit fuel s [c]) /\ Contains l m = true.
Proof.
  intros Hm Hc. revert s; induction fuel as [|fuel IH]; intros s L H.
  - destruct s; [|simpl in L; lia]. rewrite Contains_nil in H by assumption.
    discriminate.
  - simpl. destruct (Index s [c] <? 0)%Z eqn:E.
    + exists s. split; [now left|assumption].
    + apply Z.ltb_ge in E.
      assert (Hi : Index s [c] = Z.of_nat (Z.to_nat (Index s [c]))) by lia.
      pose proof (Index_cut s [c] _ Hi) as Hcut.
      set (k := Z.to_nat (Index s [c])) in *.
      destruct (Contains (firstn k s) m) eqn:F.
      * exists (firstn k s). split; [now left|assumption].
      * rewrite Hcut in H. simpl app in H.
        pose proof (Contains_across _ _ m c Hc H F) as Hb.
        destruct (IH (skipn (k + List.length [c]) s)) as (l & Hl & Hlm).
        -- rewrite length_skipn. simpl. lia.
        -- exact Hb.
        -- exists l. split; [now right|assumption].
Qed.

(** The marker holds no newline: an output holds it exactly when one of its
    lines does. *)
Lemma lines_marker (out : gostring) :
  existsb (fun l => Contains l infected_marker) (Split out newline)
  = Contains out infected_marker.
Proof.
  destruct (Contains out infected_marker) eqn:H.
  - apply existsb_exists.
    apply (genSplit_holds (List.length out) out infected_marker 10);
      [discriminate| |lia|assumption].
    intros Hin. vm_compute in Hin.
    repeat (destruct Hin as [Hin|Hin]; [discriminate Hin|]). exact Hin.
  - destruct (existsb _ _) eqn:E; [|reflexivity].
    apply existsb_exists in E. destruct E as (l & Hl & Hlm).
    pose proof (lines_clean out H) as Hc. rewrite forallb_forall in Hc.
    specialize (Hc l Hl). rewrite Hlm in Hc. discriminate.
Qed.

(** *** Trimming twice *)

Lemma TrimLeftFunc_head (f : rune -> bool) (s t : gostring) (c : rune) :
  TrimLeftFunc f s = c :: t -> f c = false.
Proof.
  induction s as [|d s IH]; simpl; [discriminate|].
  destruct (f d) eqn:E; [assumption|].
  intros H. injection H as <- _. assumption.
Qed.

Lemma TrimLeftFunc_kept (f : rune -> bool) (s : gostring) (c : rune) :
  f c = false -> TrimLeftFunc f (c :: s) = c :: s.
Proof. intros H. simpl. now rewrite H. Qed.

Lemma TrimRightFunc_idem (f : rune -> bool) (s : gostring) :
  TrimRightFunc f (TrimRightFunc f s) = TrimRightFunc f s.
Proof.
  induction s as [|c s IH]; simpl; [reflexivity|].
  destruct (TrimRightFunc f s) as [|d t] eqn:E.
  - destruct (f c) eqn:F; simpl; [reflexivity|]. now rewrite F.
  - simpl in IH |- *. rewrite IH. reflexivity.
Qed.

(** Trimming on the right keeps a head that is not trimmed. *)
Lemma TrimRightFunc_head (f : rune -> bool) (s : gostring) (c : rune) :
  f c = false -> exists t, TrimRightFunc f (c :: s) = c :: t.
Proof.
  intros H. simpl. destruct (TrimRightFunc f s); [|eauto].
  rewrite H. eauto.
Qed.

Lemma TrimFunc_idem (f : rune -> bool) (s : gostring) :
  TrimFunc f (TrimFunc f s) = TrimFunc f s.
Proof.
  unfold TrimFunc. destruct (TrimLeftFunc f s) as [|c t] eqn:E.
  - reflexivity.
  - pose proof (TrimLeftFunc_head f s t c E) as Hc.
    destruct (TrimRightFunc_head f t c Hc) as (t' & Ht).
    rewrite Ht, (TrimLeftFunc_kept f t' c Hc), <- Ht.
    apply TrimRightFunc_idem.
Qed.

Lemma TrimSpace_idem (s : gostring) : TrimSpace (TrimSpace s) = TrimSpace s.
Proof. apply TrimFunc_idem. Qed.

(** *** Fields hold no white space *)

Lemma fieldsFrom_no_space (field s word : gostring) :
  forallb (fun c => negb (unicode.IsSpace c)) field = true ->
  In word (fieldsFrom field s) ->
  forallb (fun c => negb (unicode.IsSpace c)) word = true.
Proof.
  revert field; induction s as [|c s IH]; intros field Hf Hin; simpl in Hin.
  - destruct field as [|d field]; [destruct Hin|].
    destruct Hin as [<-|[]].
    apply forallb_forall. intros x Hx. apply in_rev in Hx.
    rewrite forallb_forall in Hf. now apply Hf.
  - destruct (unicode.IsSpace c) eqn:E.
    + assert (G : In word (fieldsFrom [] s) ->
                  forallb (fun c => negb (unicode.IsSpace c)) word = true)
        by (apply IH; reflexivity).
      destruct field as [|d field]; [now apply G|].
      destruct Hin as [<-|Hin]; [|now apply G].
      apply forallb_forall. intros x Hx. apply in_rev in Hx.
      rewrite forallb_forall in Hf. now apply Hf.
    + apply (IH (c :: field)); [|assumption].
      simpl. now rewrite E.
Qed.

Lemma Fields_no_space (s word : gostring) :
  In word (Fields s) ->
  forallb (fun c => negb (unicode.IsSpace c)) word = true.
Proof. apply fieldsFrom_no_space. reflexivity. Qed.

Lemma TrimPrefix_no_space (word prefix : gostring) :
  forallb (fun c => negb (unicode.IsSpace c)) word = true ->
  forallb (fun c => negb (unicode.IsSpace c)) (TrimPrefix word prefix) = true.
Proof.
  intros H. unfold TrimPrefix. destruct (HasPrefix word prefix); [|assumption].
  apply forallb_forall. intros x Hx. apply In_skipn in Hx.
  rewrite forallb_forall in H. now apply H.
Qed.

End MoreStringFacts.

(** ** The parser, continued *)

Section MoreParserFacts.

Import strings.

(** A property of the record that every line keeps is kept by the loop. *)
Lemma rangeLines_invariant (P : ResultsData -> Prop) :
  (forall b l b', P b -> parseLine b l = Returned b' -> P b') ->
  forall lines b b', P b -> rangeLines lines b = Returned b' -> P b'.
Proof.
  intros Step. induction lines as [|l lines IH]; intros b b' Hb E; simpl in E.
  - now injection E as <-.
  - destruct (parseLine b l) as [b1| |] eqn:E1; simpl in E; try discriminate.
    eapply IH; [|eassumption]. eapply Step; eassumption.
Qed.

Lemma existsb_false_forallb {A : Type} (f : A -> bool) (l : list A) :
  existsb f l = false -> forallb (fun x => negb (f x)) l = true.
Proof.
  induction l as [|a l IH]; simpl; [reflexivity|].
  intros H. apply orb_false_iff in H as [Ha Hl]. rewrite Ha. simpl. auto.
Qed.

Lemma forallb_existsb_false {A : Type} (f : A -> bool) (l : list A) :
  forallb (fun x => negb (f x)) l = true -> existsb f l = false.
Proof.
  induction l as [|a l IH]; simpl; [reflexivity|].
  intros H. apply andb_true_iff in H as [Ha Hl].
  apply negb_true_iff in Ha. rewrite Ha. simpl. auto.
Qed.

(** The sentinel lookup returns or ends the process with status 1. *)
Lemma getUpdatedDate_cases (w : World) :
  (exists u, getUpdatedDate w = Returned u) \/ getUpdatedDate w = Exited 1.
Proof.
  unfold getUpdatedDate.
  destruct (os_IsNotExist (os_Stat w UPDATED)); [eauto|].
  destruct (ioutil_ReadFile w UPDATED) as [updated [e|]]; simpl; [|eauto].
  destruct (negb (eqs (Error e) (str "exit status 1"))); simpl; eauto.
Qed.

(** The pieces of an output that lacks [m] lack it too. *)
Lemma lines_lack (out m : gostring) :
  Contains out m = false ->
  forallb (fun l => negb (Contains l m)) (Split out newline) = true.
Proof.
  intros H. apply forallb_forall. intros l Hl.
  destruct (Split_piece out newline l newline_nonempty Hl) as (x & y & ->).
  apply negb_true_iff. eapply Contains_piece; eassumption.
Qed.

(** The verdict of the loop: what it was, or a line with the marker. *)
Lemma rangeLines_infected (lines : list gostring) (b b' : ResultsData) :
  rangeLines lines b = Returned b' ->
  Infected b' = Infected b || existsb (fun l => Contains l infected_marker) lines.
Proof.
  revert b; induction lines as [|l lines IH]; intros b E; simpl in E.
  - injection E as <-. simpl. now rewrite orb_false_r.
  - destruct (parseLine b l) as [b1| |] eqn:E1; simpl in E; try discriminate.
    rewrite (IH b1 E). simpl existsb.
    destruct (Contains l infected_marker) eqn:C.
    + rewrite (parseLine_marker b l C) in E1.
      destruct (len (lineName l) =? 0)%Z; [discriminate|].
      injection E1 as <-. simpl. now rewrite orb_true_r.
    + destruct (parseLine_clean b l C) as (b0 & E0 & Hi & _).
      rewrite E0 in E1. injection E1 as <-. now rewrite Hi.
Qed.

(** Lines that hold neither marker change nothing. *)
Lemma rangeLines_idle (lines : list gostring) (b : ResultsData) :
  forallb (fun l => negb (Contains l infected_marker)) lines = true ->
  forallb (fun l => negb (Contains l Unices_marker)) lines = true ->
  rangeLines lines b = Returned b.
Proof.
  induction lines as [|l lines IH]; intros H1 H2; simpl; [reflexivity|].
  simpl in H1, H2.
  apply andb_true_iff in H1 as [C1 H1]. apply andb_true_iff in H2 as [C2 H2].
  apply negb_true_iff in C1, C2.
  rewrite (parseLine_other b l C1 C2). simpl. now apply IH.
Qed.

(** The words of a line keep the engine version free of white space. *)
Lemma rangeWords_no_space (words : list gostring) (b : ResultsData) :
  (forall word, In word words ->
                forallb (fun c => negb (unicode.IsSpace c)) word = true) ->
  forallb (fun c => negb (unicode.IsSpace c)) (Engine b) = true ->
  forallb (fun c => negb (unicode.IsSpace c)) (Engine (rangeWords words b)) = true.
Proof.
  revert b; induction words as [|x words IH]; intros b Hw Hb.
  - exact Hb.
  - rewrite rangeWords_cons. apply IH.
    + intros word Hin. apply Hw. now right.
    + unfold engineWord. destruct (HasPrefix x (str "v")); [|assumption].
      simpl. apply TrimPrefix_no_space. apply Hw. now left.
Qed.

Lemma parseLine_engine_no_space (b b' : ResultsData) (line : gostring) :
  forallb (fun c => negb (unicode.IsSpace c)) (Engine b) = true ->
  parseLine b line = Returned b' ->
  forallb (fun c => negb (unicode.IsSpace c)) (Engine b') = true.
Proof.
  intros Hb E. destruct (banner line) eqn:B.
  - rewrite (parseLine_banner b line B) in E. injection E as <-.
    apply rangeWords_no_space; [|assumption].
    intros word. apply Fields_no_space.
  - now rewrite (parseLine_no_banner b b' line B E).
Qed.

Lemma parseLine_result_trimmed (b b' : ResultsData) (line : gostring) :
  TrimSpace (Result b) = Result b ->
  parseLine b line = Returned b' ->
  TrimSpace (Result b') = Result b'.
Proof.
  intros Hb E. destruct (Contains line infected_marker) eqn:C.
  - rewrite (parseLine_marker b line C) in E.
    destruct (len (lineName line) =? 0)%Z; [discriminate|].
    injection E as <-. simpl. unfold lineName. apply TrimSpace_idem.
  - destruct (parseLine_clean b line C) as (b0 & E0 & _ & Hr).
    rewrite E0 in E. injection E as <-. now rewrite Hr.
Qed.

End MoreParserFacts.

(** ** What the parser does on every input *)

(** X1.  [extractVirusName] panics, its index out of range, exactly on the
    lines that do not hold the marker. *)
Theorem extractVirusName_panics_iff (line : gostring) :
  extractVirusName line = Panicked <->
  strings.Contains line infected_marker = false.
Proof.
  split.
  - intros H. destruct (strings.Contains line infected_marker) eqn:C;
      [|reflexivity].
    rewrite (extractVirusName_Contains line C) in H. discriminate.
  - intros H. unfold extractVirusName.
    rewrite (Split_none line _ infected_marker_nonempty H). reflexivity.
Qed.

(** X2.  The parser never panics: the loop calls [extractVirusName] on
    lines that hold the marker only. *)
Theorem ParseBitdefenderOutput_never_panics
  (w : World) (out : gostring) (err : option error) :
  ParseBitdefenderOutput w out err <> Panicked.
Proof.
  unfold ParseBitdefenderOutput. destruct err as [e|]; [discriminate|].
  cbv zeta.
  destruct (existsb nameless (strings.Split out newline)) eqn:N.
  - rewrite (rangeLines_exits _ _ N). discriminate.
  - destruct (rangeLines_returns (strings.Split out newline)
                (mkResultsData false [] [] [] [])
                (existsb_false_forallb _ _ N)) as (b & E).
    rewrite E. simpl.
    destruct (getUpdatedDate_cases w) as [[u U]|U]; rewrite U; discriminate.
Qed.

(** X3.  Given no error, the parser ends the process with status 2 exactly
    when some line is nameless. *)
Theorem ParseBitdefenderOutput_exit_2_iff (w : World) (out : gostring) :
  ParseBitdefenderOutput w out None = Exited 2 <->
  existsb nameless (strings.Split out newline) = true.
Proof.
  unfold ParseBitdefenderOutput. cbv zeta.
  destruct (existsb nameless (strings.Split out newline)) eqn:N.
  - rewrite (rangeLines_exits _ _ N). split; reflexivity.
  - destruct (rangeLines_returns (strings.Split out newline)
                (mkResultsData false [] [] [] [])
                (existsb_false_forallb _ _ N)) as (b & E).
    rewrite E. simpl.
    destruct (getUpdatedDate_cases w) as [[u U]|U]; rewrite U; simpl;
      split; discriminate.
Qed.

(** X4.  Given no error, the parser returns a result exactly when no line
    is nameless and the sentinel lookup returns. *)
Theorem ParseBitdefenderOutput_returns_iff (w : World) (out : gostring) :
  (exists r, ParseBitdefenderOutput w out None = Returned r) <->
  existsb nameless (strings.Split out newline) = false /\
  (exists u, getUpdatedDate w = Returned u).
Proof.
  unfold ParseBitdefenderOutput. cbv zeta.
  destruct (existsb nameless (strings.Split out newline)) eqn:N.
  - rewrite (rangeLines_exits _ _ N). split.
    + intros [r H]. discriminate.
    + intros [H _]. discriminate.
  - destruct (rangeLines_returns (strings.Split out newline)
                (mkResultsData false [] [] [] [])
                (existsb_false_forallb _ _ N)) as (b & E).
    rewrite E. simpl.
    destruct (getUpdatedDate w) as [u| |]; simpl; split.
    + eauto.
    + eauto.
    + intros [r H]. discriminate.
    + intros [_ [u H]]. discriminate.
    + intros [r H]. discriminate.
    + intros [_ [u H]]. discriminate.
Qed.

(** X5.  In a result returned for an input without error, [Infected] says
    whether the output holds the marker "infected:". *)
Theorem ParseBitdefenderOutput_infected_iff
  (w : World) (out : gostring) (r : ResultsData) :
  ParseBitdefenderOutput w out None = Returned r ->
  Infected r = strings.Contains out infected_marker.
Proof.
  unfold ParseBitdefenderOutput. cbv zeta.
  destruct (rangeLines (strings.Split out newline)
              (mkResultsData false [] [] [] [])) as [b| |] eqn:E;
    simpl; try discriminate.
  destruct (getUpdatedDate w) as [u| |]; simpl; try discriminate.
  intros H. injection H as <-. simpl.
  rewrite (rangeLines_infected _ _ _ E). simpl. apply lines_marker.
Qed.

(** X5 on the example output of the source. *)
Lemma ParseBitdefenderOutput_infected_iff_witness :
  Infected (mkResultsData true (str "EICAR-Test-File (not a virus)")
              (str "7.90123") (str "20180914") [])
  = strings.Contains exampleOutput infected_marker.
Proof.
  apply (ParseBitdefenderOutput_infected_iff (sampleWorld [] [] None)).
  vm_compute. reflexivity.
Defined.

(** X6.  The name in a returned result has no white space around it:
    trimming it again changes nothing. *)
Theorem ParseBitdefenderOutput_result_trimmed
  (w : World) (out : gostring) (err : option error) (r : ResultsData) :
  ParseBitdefenderOutput w out err = Returned r ->
  strings.TrimSpace (Result r) = Result r.
Proof.
  unfold ParseBitdefenderOutput. destruct err as [e|].
  - intros H. now injection H as <-.
  - cbv zeta.
    destruct (rangeLines (strings.Split out newline)
                (mkResultsData false [] [] [] [])) as [b| |] eqn:E;
      simpl; try discriminate.
    destruct (getUpdatedDate w) as [u| |]; simpl; try discriminate.
    intros H. injection H as <-. simpl.
    apply (rangeLines_invariant
             (fun b => strings.TrimSpace (Result b) = Result b)
             (fun b0 l b1 => parseLine_result_trimmed b0 b1 l)
             _ (mkResultsData false [] [] [] []) b eq_refl E).
Qed.

(** X6 on a line whose name is written between blanks. *)
Lemma ParseBitdefenderOutput_result_trimmed_witness :
  strings.TrimSpace
    (Result (mkResultsData true (str "Trojan.Generic") [] (str "20180914") []))
  = Result (mkResultsData true (str "Trojan.Generic") [] (str "20180914") []).
Proof.
  apply (ParseBitdefenderOutput_result_trimmed (sampleWorld [] [] None)
           (str "/malware/x  infected:    Trojan.Generic   ") None).
  vm_compute. reflexivity.
Defined.

(** X7.  The engine version in a returned result holds no white space. *)
Theorem ParseBitdefenderOutput_engine_no_space
  (w : World) (out : gostring) (err : option error) (r : ResultsData) :
  ParseBitdefenderOutput w out err = Returned r ->
  forallb (fun c => negb (unicode.IsSpace c)) (Engine r) = true.
Proof.
  unfold ParseBitdefenderOutput. destruct err as [e|].
  - intros H. now injection H as <-.
  - cbv zeta.
    destruct (rangeLines (strings.Split out newline)
                (mkResultsData false [] [] [] [])) as [b| |] eqn:E;
      simpl; try discriminate.
    destruct (getUpdatedDate w) as [u| |]; simpl; try discriminate.
    intros H. injection H as <-. simpl.
    apply (rangeLines_invariant
             (fun b => forallb (fun c => negb (unicode.IsSpace c)) (Engine b)
                       = true)
             (fun b0 l b1 => parseLine_engine_no_space b0 b1 l)
             _ (mkResultsData false [] [] [] []) b eq_refl E).
Qed.

(** X7 on the example output of the source. *)
Lemma ParseBitdefenderOutput_engine_no_space_witness :
  forallb (fun c => negb (unicode.IsSpace c))
    (Engine (mkResultsData true (str "EICAR-Test-File (not a virus)")
               (str "7.90123") (str "20180914") [])) = true.
Proof.
  apply (ParseBitdefenderOutput_engine_no_space (sampleWorld [] [] None)
           exampleOutput None).
  vm_compute. reflexivity.
Defined.

(** X8.  An output that holds neither "infected:" nor "Unices v", the empty
    output among them, gives the default record with [Updated] alone set. *)
Theorem ParseBitdefenderOutput_default
  (w : World) (out u : gostring) :
  strings.Contains out infected_marker = false ->
  strings.Contains out Unices_marker = false ->
  getUpdatedDate w = Returned u ->
  ParseBitdefenderOutput w out None
  = Returned (mkResultsData false [] [] u []).
Proof.
  intros H1 H2 U. unfold ParseBitdefenderOutput. cbv zeta.
  rewrite (rangeLines_idle _ _ (lines_lack out _ H1) (lines_lack out _ H2)).
  simpl. rewrite U. reflexivity.
Qed.

(** X8 on the empty output. *)
Lemma ParseBitdefenderOutput_default_witness :
  ParseBitdefenderOutput (sampleWorld [] [] None) [] None
  = Returned (mkResultsData false [] [] (str "20180914") []).
Proof.
  apply (ParseBitdefenderOutput_default (sampleWorld [] [] None) []
           (str "20180914")); reflexivity.
Defined.

(** ** The sentinel, the update and the scan *)

(** A result of the parser comes from the loop and the sentinel lookup. *)
Lemma ParseBitdefenderOutput_inv (w : World) (out : gostring) (r : ResultsData) :
  ParseBitdefenderOutput w out None = Returned r ->
  exists b u,
    rangeLines (strings.Split out newline) (mkResultsData false [] [] [] [])
    = Returned b /\
    getUpdatedDate w = Returned u /\
    r = set_Updated b u.
Proof.
  unfold ParseBitdefenderOutput. cbv zeta.
  destruct (rangeLines (strings.Split out newline)
              (mkResultsData false [] [] [] [])) as [b| |];
    simpl; try discriminate.
  destruct (getUpdatedDate w) as [u| |]; simpl; try discriminate.
  intros H. injection H as <-. eauto.
Qed.

(** A scan that returns has run the scanner on [path] and has parsed its
    output; the scanner's error was nil or "exit status 1". *)
Lemma AvScan_inv (w : World) (timeout : Z) (b : Bitdefender) :
  AvScan w timeout = Returned b ->
  exists results err,
    RunCommand w (Some (time.mul timeout time.Second)) (str "bdscan") [path w]
    = (results, err) /\
    assert err = Returned tt /\
    ParseBitdefenderOutput w results None = Returned (Results b).
Proof.
  unfold AvScan. cbv zeta.
  destruct (RunCommand w (Some (time.mul timeout time.Second))
              (str "bdscan") [path w]) as [results err].
  destruct (assert err) as [[]| |] eqn:A; cbn [bind]; try discriminate.
  destruct (ParseBitdefenderOutput w results None) as [r| |] eqn:P;
    cbn [bind]; try discriminate.
  intros H. injection H as <-. exists results, err. auto.
Qed.

(** X9.  A sentinel file that is there and cannot be read is fatal: the
    lookup ends the process with status 1 instead of falling back on the
    build-time constant, and so does every parse that reaches it. *)
Theorem getUpdatedDate_unreadable
  (w : World) (contents : gostring) (e : error) :
  lookup UPDATED (files w) = Some contents ->
  readFault w UPDATED = Some e ->
  eqs (Error e) (str "exit status 1") = false ->
  getUpdatedDate w = Exited 1 /\
  (forall out,
     existsb nameless (strings.Split out newline) = false ->
     ParseBitdefenderOutput w out None = Exited 1).
Proof.
  intros Hl Hr He.
  assert (U : getUpdatedDate w = Exited 1).
  { unfold getUpdatedDate, os_Stat, ioutil_ReadFile. rewrite Hl, Hr.
    destruct (statFault w UPDATED); simpl; now rewrite He. }
  split; [exact U|].
  intros out N. unfold ParseBitdefenderOutput. cbv zeta.
  destruct (rangeLines_returns (strings.Split out newline)
              (mkResultsData false [] [] [] [])
              (existsb_false_forallb _ _ N)) as (b & E).
  rewrite E. simpl. now rewrite U.
Qed.

(** A world whose sentinel file cannot be read. *)
Lemma getUpdatedDate_unreadable_witness :
  getUpdatedDate
    (mkWorld (str "20180914") [] [(UPDATED, str "20230615")]
       (fun _ => Some (mkError (str "permission denied") false)) noFault
       (fun _ _ _ => ([], None)) (time.mkTime 2023 6 15)
       (fun _ _ => TempCreated []) noFault None) = Exited 1 /\
  (forall out,
     existsb nameless (strings.Split out newline) = false ->
     ParseBitdefenderOutput
       (mkWorld (str "20180914") [] [(UPDATED, str "20230615")]
          (fun _ => Some (mkError (str "permission denied") false)) noFault
          (fun _ _ _ => ([], None)) (time.mkTime 2023 6 15)
          (fun _ _ => TempCreated []) noFault None) out None = Exited 1).
Proof.
  apply (getUpdatedDate_unreadable _ (str "20230615")
           (mkError (str "permission denied") false)); reflexivity.
Defined.

(** X10.  After an update whose write succeeds, the sentinel lookup returns
    the date the update wrote, as long as the file can be read. *)
Theorem updateAV_then_getUpdatedDate
  (w : World) (ctx : Context) (output : gostring) (err : option error) :
  RunCommand w ctx (str "bdscan") [str "--update"] = (output, err) ->
  assert err = Returned tt ->
  writeFault w UPDATED = None ->
  readFault w UPDATED = None ->
  exists w',
    updateAV w ctx = (w', Returned None) /\
    getUpdatedDate w' = Returned (time.Format_20060102 (Now w)).
Proof.
  intros R A Hw Hr. unfold updateAV. rewrite R, A. cbv iota beta zeta.
  unfold ioutil_WriteFile. rewrite Hw.
  eexists. split; [reflexivity|].
  apply getUpdatedDate_present.
  - unfold set_files. cbn [files]. apply lookup_store.
  - exact Hr.
Qed.

(** X10 on 15 June 2023, in a world that had no sentinel file. *)
Lemma updateAV_then_getUpdatedDate_witness :
  exists w',
    updateAV (sampleWorld [] [] None) None = (w', Returned None) /\
    getUpdatedDate w' = Returned (str "20230615").
Proof.
  apply (updateAV_then_getUpdatedDate (sampleWorld [] [] None) None [] None);
    reflexivity.
Defined.

(** X11.  When the update sub-command fails with an error other than "exit
    status 1", [updateAV] ends the process with status 1 and writes
    nothing. *)
Theorem updateAV_scanner_fails
  (w : World) (ctx : Context) (output : gostring) (e : error) :
  RunCommand w ctx (str "bdscan") [str "--update"] = (output, Some e) ->
  eqs (Error e) (str "exit status 1") = false ->
  updateAV w ctx = (w, Exited 1).
Proof.
  intros R He. unfold updateAV. rewrite R. simpl. now rewrite He.
Qed.

(** X11 with a scanner that is not installed. *)
Lemma updateAV_scanner_fails_witness :
  updateAV
    (sampleWorld [] [] (Some (mkError (str "executable file not found") false)))
    None
  = (sampleWorld [] [] (Some (mkError (str "executable file not found") false)),
     Exited 1).
Proof.
  apply (updateAV_scanner_fails _ None []
           (mkError (str "executable file not found") false)); reflexivity.
Defined.

(** A deadline of up to 9223372036 seconds, either way, is held exactly:
    the product with [time.Second] does not wrap. *)
Lemma mul_Second_exact (timeout : Z) :
  (-9223372036 <= timeout <= 9223372036)%Z ->
  time.mul timeout time.Second = (timeout * 1000000000)%Z.
Proof.
  intros H. unfold time.mul, time.int64, time.Second.
  rewrite Z.mod_small; lia.
Qed.

(** Beyond that the product wraps: 18446744074 seconds become a deadline of
    290448384 nanoseconds. *)
Example mul_Second_wraps :
  time.mul 18446744074%Z time.Second = 290448384%Z.
Proof. reflexivity. Qed.

(** X12.  A scan that returns has a verdict that says whether the
    scanner's output holds the marker; the scanner ran on the global [path]
    under the deadline that [time.Duration(timeout)*time.Second] gives in
    [int64], which is [timeout] seconds as long as the product does not
    wrap; and its error was nil or "exit status 1". *)
Theorem AvScan_verdict (w : World) (timeout : Z) (b : Bitdefender) :
  AvScan w timeout = Returned b ->
  exists results err,
    RunCommand w (Some (time.mul timeout time.Second)) (str "bdscan") [path w]
    = (results, err) /\
    ((-9223372036 <= timeout <= 9223372036)%Z ->
     time.mul timeout time.Second = (timeout * 1000000000)%Z) /\
    assert err = Returned tt /\
    Infected (Results b) = strings.Contains results infected_marker.
Proof.
  intros H. destruct (AvScan_inv w timeout b H) as (results & err & R & A & P).
  exists results, err. split; [exact R|]. split; [apply mul_Second_exact|].
  split; [exact A|].
  destruct (ParseBitdefenderOutput_inv w results _ P) as (b0 & u & E & _ & ->).
  simpl. rewrite (rangeLines_infected _ _ _ E). simpl. apply lines_marker.
Qed.

(** X12 with a scanner that finds the test file and exits with status 1. *)
Lemma AvScan_verdict_witness :
  exists results err,
    RunCommand
      (sampleWorld [] exampleOutput (Some (mkError (str "exit status 1") false)))
      (Some (time.mul 60%Z time.Second)) (str "bdscan")
      [path (sampleWorld [] exampleOutput
               (Some (mkError (str "exit status 1") false)))]
    = (results, err) /\
    ((-9223372036 <= 60 <= 9223372036)%Z ->
     time.mul 60%Z time.Second = (60 * 1000000000)%Z) /\
    assert err = Returned tt /\
    Infected
      (Results
         (mkBitdefender
            (mkResultsData true (str "EICAR-Test-File (not a virus)")
               (str "7.90123") (str "20180914") [])))
    = strings.Contains results infected_marker.
Proof.
  apply (AvScan_verdict
           (sampleWorld [] exampleOutput
              (Some (mkError (str "exit status 1") false))) 60).
  vm_compute. reflexivity.
Defined.

(** X13.  The older [AvScan] hands the scanner's error to the parser: when
    the scanner exits with any error, "exit status 1" included, the result
    is the empty record, whatever the output says. *)
Theorem legacy_AvScan_error
  (w : World) (p results : gostring) (timeout : Z) (e : error) :
  RunCommand w (Some (time.mul timeout time.Second)) (str "bdscan") [p]
  = (results, Some e) ->
  legacy.AvScan w p timeout
  = Returned (mkBitdefender (mkResultsData false [] [] [] [])).
Proof.
  intros R. unfold legacy.AvScan. cbv zeta. rewrite R. reflexivity.
Qed.

(** X13 with a scanner that finds the test file and exits with status 1. *)
Lemma legacy_AvScan_error_witness :
  legacy.AvScan
    (sampleWorld [] exampleOutput (Some (mkError (str "exit status 1") false)))
    (str "/malware/EICAR") 60
  = Returned (mkBitdefender (mkResultsData false [] [] [] [])).
Proof.
  apply (legacy_AvScan_error _ _ exampleOutput _
           (mkError (str "exit status 1") false)).
  reflexivity.
Defined.

(** ** The handler, continued *)

(** A handler body that returns has written the payload to the temporary
    file, has set the global [path] to it, and has scanned for 60 seconds
    at most. *)
Lemma webAvScanBody_inv
  (w w1 : World) (tmpfile : gostring) (file : Upload) (resp : Response) :
  webAvScanBody w tmpfile file = (w1, Returned resp) ->
  w1 = set_path (set_files w (store tmpfile (payload file) (files w))) tmpfile /\
  StatusCode resp = 200%Z /\
  AvScan w1 60 = Returned (Body resp).
Proof.
  unfold webAvScanBody.
  destruct (assert (readAllErr file)) as [[]| |]; try discriminate.
  destruct (writeFault w tmpfile); [discriminate|].
  destruct (closeFault _ tmpfile); [discriminate|].
  destruct (AvScan _ 60) as [b| |] eqn:A; try discriminate.
  destruct (encodeFault _); [discriminate|].
  intros H. injection H as <- <-. auto.
Qed.

(** X14.  When the handler returns, it has answered with status 200, the
    temporary file is removed, and the package-level [path] is left set to
    the name of that file. *)
Theorem webAvScan_returned
  (w w' : World) (r : Request) (name : gostring) (resp : Response) :
  TempFile w (str "/malware") (str "web_") = TempCreated name ->
  webAvScan w r = (w', Returned resp) ->
  StatusCode resp = 200%Z /\
  lookup name (files w') = None /\
  path w' = name.
Proof.
  intros Ht. rewrite webAvScan_eq.
  destruct (FormFile r (str "malware")) as [file|]; [|discriminate].
  rewrite Ht.
  destruct (webAvScanBody _ name file) as [w1 o] eqn:E.
  destruct o as [resp1|c1|]; simpl; try discriminate.
  intros H. injection H as <- <-.
  destruct (webAvScanBody_inv _ _ _ _ _ E) as (-> & Hs & _).
  split; [exact Hs|]. split.
  - unfold os_Remove, set_files. cbn [files]. apply lookup_remove.
  - reflexivity.
Qed.

(** X14 on an upload that the scanner finds infected. *)
Lemma webAvScan_returned_witness :
  StatusCode
    (mkResponse 200
       (mkBitdefender
          (mkResultsData true (str "EICAR-Test-File (not a virus)")
             (str "7.90123") (str "20180914") []))) = 200%Z /\
  lookup (str "/malware/web_123456")
    (files (fst (webAvScan (sampleWorld [] exampleOutput None) sampleRequest)))
  = None /\
  path (fst (webAvScan (sampleWorld [] exampleOutput None) sampleRequest))
  = str "/malware/web_123456".
Proof.
  apply (webAvScan_returned (sampleWorld [] exampleOutput None) _
           sampleRequest (str "/malware/web_123456")).
  - reflexivity.
  - vm_compute. reflexivity.
Defined.

(** X16.  A response of the handler carries the verdict on the uploaded
    file: the scanner ran on the temporary file with a deadline of 60
    seconds, its error was nil or "exit status 1", and [Infected] says
    whether its output holds the marker. *)
Theorem webAvScan_verdict
  (w w' : World) (r : Request) (name : gostring) (resp : Response) :
  TempFile w (str "/malware") (str "web_") = TempCreated name ->
  webAvScan w r = (w', Returned resp) ->
  exists results err,
    RunCommand w (Some (time.mul 60%Z time.Second)) (str "bdscan") [name]
    = (results, err) /\
    assert err = Returned tt /\
    Infected (Results (Body resp)) = strings.Contains results infected_marker.
Proof.
  intros Ht. rewrite webAvScan_eq.
  destruct (FormFile r (str "malware")) as [file|]; [|discriminate].
  rewrite Ht.
  destruct (webAvScanBody _ name file) as [w1 o] eqn:E.
  destruct o as [resp1|c1|]; simpl; try discriminate.
  intros H. injection H as _ <-.
  destruct (webAvScanBody_inv _ _ _ _ _ E) as (-> & _ & A).
  destruct (AvScan_inv _ _ _ A) as (results & err & R & As & P).
  exists results, err. repeat split; try assumption.
  destruct (ParseBitdefenderOutput_inv _ results _ P) as (b0 & u & L & _ & Hb).
  rewrite Hb. simpl. rewrite (rangeLines_infected _ _ _ L). simpl.
  apply lines_marker.
Qed.

(** X16 on an upload that the scanner finds infected. *)
Lemma webAvScan_verdict_witness :
  exists results err,
    RunCommand (sampleWorld [] exampleOutput None)
      (Some (time.mul 60%Z time.Second)) (str "bdscan")
      [str "/malware/web_123456"] = (results, err) /\
    assert err = Returned tt /\
    Infected
      (Results
         (Body
            (mkResponse 200
               (mkBitdefender
                  (mkResultsData true (str "EICAR-Test-File (not a virus)")
                     (str "7.90123") (str "20180914") [])))))
    = strings.Contains results infected_marker.
Proof.
  apply (webAvScan_verdict (sampleWorld [] exampleOutput None)
           (fst (webAvScan (sampleWorld [] exampleOutput None) sampleRequest))
           sampleRequest).
  - reflexivity.
  - vm_compute. reflexivity.
Defined.

(** ** The rendered table *)

Lemma parseLine_MarkDown (b b' : ResultsData) (line : gostring) :
  MarkDown b = [] -> parseLine b line = Returned b' -> MarkDown b' = [].
Proof.
  intros Hb E. destruct (strings.Contains line infected_marker) eqn:C.
  - rewrite (parseLine_marker b line C) in E.
    destruct (len (lineName line) =? 0)%Z; [discriminate|].
    now injection E as <-.
  - destruct (strings.Contains line Unices_marker) eqn:U.
    + rewrite parseLine_banner in E by (unfold banner; now rewrite C, U).
      injection E as <-.
      destruct (rangeWords_keeps (strings.Fields line) b) as (_ & _ & _ & H).
      now rewrite H.
    + rewrite (parseLine_other b line C U) in E. now injection E as <-.
Qed.

(** X17.  The parser never fills the rendered table: [MarkDown] is empty in
    every result it returns. *)
Theorem ParseBitdefenderOutput_MarkDown
  (w : World) (out : gostring) (err : option error) (r : ResultsData) :
  ParseBitdefenderOutput w out err = Returned r -> MarkDown r = [].
Proof.
  destruct err as [e|].
  - intros H. now injection H as <-.
  - intros H.
    destruct (ParseBitdefenderOutput_inv w out r H) as (b & u & E & _ & ->).
    simpl.
    apply (rangeLines_invariant (fun b => MarkDown b = [])
             (fun b0 l b1 => parseLine_MarkDown b0 b1 l)
             _ (mkResultsData false [] [] [] []) b eq_refl E).
Qed.

(** X17 on the example output of the source. *)
Lemma ParseBitdefenderOutput_MarkDown_witness :
  MarkDown (mkResultsData true (str "EICAR-Test-File (not a virus)")
              (str "7.90123") (str "20180914") []) = [].
Proof.
  apply (ParseBitdefenderOutput_MarkDown (sampleWorld [] [] None)
           exampleOutput None).
  vm_compute. reflexivity.
Defined.
